(** * AI-EQ-Assistant: voice classification and EQ recommendation rules

    A shallow embedding of [analyze_voice.py]: the threshold classifier
    [categorize_voice], the breathiness indicator computed in
    [analyze_audio_characteristics], and the rule engine
    [generate_eq_recommendations].

    Conventions of the embedding.
    - Python floats are modelled by rationals ([Q]): every finite double is
      a rational, comparisons of doubles are exact, and the only arithmetic
      the rules perform ([f0 * 0.5], [round]) is exact on doubles.  Decimal
      literals of the source ([0.1], [0.05], [1.5]) are read at their
      decimal value.
    - Python strings are modelled by [string]; a character is a code point
      below 256.  [str.lower] on that range maps [A-Z] and the Latin-1
      capitals to their small letters.
    - Python dicts built by the program itself with a fixed set of keys are
      records; the accent record, which is decoded from a JSON answer of an
      external service, is a [gmap string json].
    - The two lists the rule engine appends to are threaded as an explicit
      state. *)

From Stdlib Require Import ZArith QArith Qround Qminmax Lia Lqa.
From Stdlib Require Import Ascii String DecimalString Sorted.
From stdpp Require Import gmap strings list.

Local Open Scope string_scope.
Local Open Scope list_scope.

(** ** Numbers *)

Module PyNum.

(** [x < y] on floats, as a boolean. *)
Definition ltb (x y : Q) : bool := negb (Qle_bool y x).

(** [x > y] is [y < x]. *)
Definition gtb (x y : Q) : bool := ltb y x.

(** Python's [max(a, b)] returns [b] only when [b > a]; otherwise the
    first argument. *)
Definition max (a b : Q) : Q := if gtb b a then b else a.

(** Python's [round(x)] on a float: the nearest integer, ties to the even
    one.  [{x:.0f}] rounds the same way. *)
Definition round (x : Q) : Z :=
  let f := Qfloor x in
  match Qcompare (x - inject_Z f) (1 # 2) with
  | Lt => f
  | Gt => (f + 1)%Z
  | Eq => if Z.even f then f else (f + 1)%Z
  end.

(** Decimal digits of an integer, as [str(n)] prints it. *)
Definition str (n : Z) : string := NilZero.string_of_int (Z.to_int n).

(** [f"{x:.0f}"]. *)
Definition format_0f (x : Q) : string := str (round x).

End PyNum.

(** ** Strings *)

Module PyStr.

(** [c.lower()] for one character below 256. *)
Definition lower_char (c : ascii) : ascii :=
  let n := nat_of_ascii c in
  if ((65 <=? n)%nat && (n <=? 90)%nat)
     || ((192 <=? n)%nat && (n <=? 222)%nat && negb (n =? 215)%nat)
  then ascii_of_nat (n + 32)
  else c.

(** [s.lower()]. *)
Fixpoint lower (s : string) : string :=
  match s with
  | EmptyString => EmptyString
  | String c t => String (lower_char c) (lower t)
  end.

(** [needle in hay]: [needle] occurs in [hay] at some position. *)
Fixpoint contains (needle hay : string) : bool :=
  String.prefix needle hay
  || match hay with
     | EmptyString => false
     | String _ t => contains needle t
     end.

(** [x in xs] for a list of strings. *)
Definition mem (x : string) (xs : list string) : bool :=
  existsb (String.eqb x) xs.

End PyStr.

(** ** The voice classifier *)

Record VoiceCharacteristics := {
  voice_type : string;
  voice_range : string;
  brightness : string
}.

Definition categorize_voice (f0_mean centroid_mean zcr_mean : Q)
  : VoiceCharacteristics :=
  let '(vt, vr) :=
    if PyNum.ltb f0_mean 130 then ("bass", "low")
    else if PyNum.ltb f0_mean 180 then
      (if PyNum.ltb f0_mean 155 then "baritone" else "tenor", "low-mid")
    else if PyNum.ltb f0_mean 250 then
      (if PyNum.ltb f0_mean 220 then "alto" else "mezzo-soprano", "mid")
    else ("soprano", "high") in
  let br :=
    if PyNum.ltb centroid_mean 1500 then "dark/warm"
    else if PyNum.ltb centroid_mean 2500 then "balanced"
    else if PyNum.ltb centroid_mean 3500 then "bright"
    else "very bright/sibilant" in
  {| voice_type := vt; voice_range := vr; brightness := br |}.

(** The [breathiness_indicator] entry of the analysis, from the mean
    zero-crossing rate. *)
Definition breathiness_indicator_of (zcr_mean : Q) : string :=
  if PyNum.gtb zcr_mean (1 # 10) then "high"
  else if PyNum.gtb zcr_mean (1 # 20) then "moderate"
  else "low".

(** ** The analysis record read by the rule engine

    [analyze_audio_characteristics] returns a dict with fixed keys; these
    are the groups [generate_eq_recommendations] indexes.  (The entries
    [duration_seconds], [sample_rate], [energy] and [plots] are never read
    by the rules and are left out.) *)

Record FundamentalFrequency := {
  mean_hz : Q;
  min_hz : Q;
  max_hz : Q;
  std_hz : Q;
  range_hz : Q
}.

Record SpectralCharacteristics := {
  centroid_mean_hz : Q;
  rolloff_mean_hz : Q;
  bandwidth_mean_hz : Q
}.

Record VoiceQuality := {
  zero_crossing_rate_mean : Q;
  breathiness_indicator : string
}.

Record AudioAnalysis := {
  fundamental_frequency : FundamentalFrequency;
  spectral_characteristics : SpectralCharacteristics;
  voice_quality : VoiceQuality;
  voice_characteristics : VoiceCharacteristics
}.

(** ** The accent record

    The answer of the accent service after [json.loads]: a dict from keys
    to JSON values. *)

#[warnings="-register-all"]
Inductive json :=
| JNull
| JBool (b : bool)
| JNumber (n : Q)
| JString (s : string)
| JArray (items : list json)
| JObject (fields : list (string * json)).

Inductive PyError :=
| AttributeError (msg : string).

Inductive result (A : Type) :=
| Ok (a : A)
| Raise (e : PyError).
Arguments Ok {A} a.
Arguments Raise {A} e.

(** [v.lower()]: only a [str] has the method. *)
Definition method_lower (v : json) : result string :=
  match v with
  | JString s => Ok (PyStr.lower s)
  | _ => Raise (AttributeError "object has no attribute 'lower'")
  end.

(** ** The EQ plan *)

Record EQBand := {
  type : string;
  frequency_hz : Z;
  gain_db : option string;
  q : option Q;
  description : string
}.

Record EQPlan := {
  summary : string;
  recommendations : list string;
  eq_bands : list EQBand;
  accent_specific_tips : list string;
  processing_suggestions : list string
}.

(** ** The rule engine *)

Module Rules.

(** The two local lists of [generate_eq_recommendations]. *)
Record state := {
  recs : list string;
  bands : list EQBand
}.

Definition init : state := {| recs := []; bands := [] |}.

(** [recommendations.append(r); eq_bands.append(b)]. *)
Definition emit (r : string) (b : EQBand) (st : state) : state :=
  {| recs := recs st ++ [r]; bands := bands st ++ [b] |}.

Definition high_pass_band (hp_freq : Q) : EQBand :=
  {| type := "high-pass"; frequency_hz := PyNum.round hp_freq;
     gain_db := None; q := None;
     description := "Remove sub-bass rumble" |}.

Definition warmth_band (f0 : Q) : EQBand :=
  {| type := "bell"; frequency_hz := PyNum.round f0;
     gain_db := Some "+1 to +2"; q := Some (3 # 2);
     description := "Add warmth and body" |}.

Definition presence_band (presence_freq : Z) : EQBand :=
  {| type := "bell"; frequency_hz := presence_freq;
     gain_db := Some "+2 to +3"; q := Some 1%Q;
     description := "Enhance presence and clarity" |}.

Definition sibilance_band : EQBand :=
  {| type := "bell"; frequency_hz := 6500;
     gain_db := Some "-2 to -4"; q := Some 2%Q;
     description := "Control sibilance" |}.

Definition air_band : EQBand :=
  {| type := "high-shelf"; frequency_hz := 10000;
     gain_db := Some "+2 to +3"; q := None;
     description := "Add air and sparkle" |}.

Definition breathiness_band : EQBand :=
  {| type := "bell"; frequency_hz := 5000;
     gain_db := Some "-1 to -2"; q := Some (3 # 2);
     description := "Control breathiness (optional)" |}.

Definition mud_band : EQBand :=
  {| type := "bell"; frequency_hz := 300;
     gain_db := Some "-1 to -3"; q := Some 1%Q;
     description := "Reduce muddiness (if needed)" |}.

(** Low-end recommendations: the high-pass filter and, nested under the
    same test, the fundamental boost. *)
Definition low_end (f0 : Q) (voice_chars : VoiceCharacteristics)
    (st : state) : state :=
  if PyNum.gtb f0 0 then
    let hp_freq := PyNum.max 60 (f0 * (1 # 2)) in
    let st :=
      emit ("Apply high-pass filter at " +:+ PyNum.format_0f hp_freq
            +:+ " Hz to remove rumble without affecting voice fundamentals")
           (high_pass_band hp_freq) st in
    if PyStr.mem (voice_range voice_chars) ["low"; "low-mid"] then
      emit ("Consider subtle boost (+1-2 dB) around " +:+ PyNum.format_0f f0
            +:+ " Hz to add warmth and body")
           (warmth_band f0) st
    else st
  else st.

(** Mid-range presence. *)
Definition presence (f0 : Q) (st : state) : state :=
  let presence_freq := if PyNum.ltb f0 200 then 2500%Z else 3000%Z in
  emit ("Boost presence around " +:+ PyNum.str presence_freq
        +:+ " Hz (+2-3 dB) for clarity and intelligibility")
       (presence_band presence_freq) st.

(** Brightness control. *)
Definition brightness_control (voice_chars : VoiceCharacteristics)
    (st : state) : state :=
  if String.eqb (brightness voice_chars) "very bright/sibilant" then
    emit "Apply de-esser or reduce 5-8 kHz range (-2-4 dB) to control sibilance"
         sibilance_band st
  else if String.eqb (brightness voice_chars) "dark/warm" then
    emit "Add air and sparkle with a gentle high shelf boost (+2-3 dB) above 10 kHz"
         air_band st
  else st.

(** Breathiness handling. *)
Definition breathiness_handling (breathiness : string) (st : state) : state :=
  if String.eqb breathiness "high" then
    emit "Consider reducing 4-6 kHz slightly (-1-2 dB) to manage breathiness, or embrace it for intimacy"
         breathiness_band st
  else st.

(** Mud reduction. *)
Definition mud_reduction (st : state) : state :=
  emit "Cut 200-400 Hz range slightly (-1-3 dB) if voice sounds muddy or boxy"
       mud_band st.

Definition irish_tips : list string :=
  ["Irish accents often have melodic qualities - preserve natural intonation by avoiding heavy compression";
   "The characteristic 'lilt' sits in the 1-3 kHz range - be careful not to over-boost this region"].

Definition british_tips : list string :=
  ["RP/British accents may benefit from slight presence boost for clarity"].

Definition american_tips : list string :=
  ["American accents often have strong 'r' sounds - watch the 2-3 kHz region"].

(** Accent-specific recommendations, from the lower-cased accent. *)
Definition accent_tips (accent : string) : list string :=
  if PyStr.contains "irish" accent || PyStr.contains "celtic" accent then
    irish_tips
  else if PyStr.contains "british" accent || PyStr.contains "english" accent then
    british_tips
  else if PyStr.contains "american" accent then
    american_tips
  else [].

Definition processing : list string :=
  ["Apply subtle compression (2:1 to 4:1 ratio) for consistent levels";
   "Use a noise gate if there's background noise between phrases";
   "Consider gentle saturation/warmth for added character"].

End Rules.

Definition generate_eq_recommendations (audio_analysis : AudioAnalysis)
    (accent_analysis : gmap string json) : result EQPlan :=
  let f0 := mean_hz (fundamental_frequency audio_analysis) in
  let centroid := centroid_mean_hz (spectral_characteristics audio_analysis) in
  let breathiness := breathiness_indicator (voice_quality audio_analysis) in
  let voice_chars := voice_characteristics audio_analysis in
  let st := Rules.init in
  let st := Rules.low_end f0 voice_chars st in
  let st := Rules.presence f0 st in
  let st := Rules.brightness_control voice_chars st in
  let st := Rules.breathiness_handling breathiness st in
  let st := Rules.mud_reduction st in
  match method_lower (default (JString "") (accent_analysis !! "primary_accent")) with
  | Raise e => Raise e
  | Ok accent =>
      Ok {| summary := "Voice profile: " +:+ voice_type voice_chars +:+ " with "
                       +:+ brightness voice_chars +:+ " tonal quality";
            recommendations := Rules.recs st;
            eq_bands := Rules.bands st;
            accent_specific_tips := Rules.accent_tips accent;
            processing_suggestions := Rules.processing |}
  end.

(** A sample analysis record for given aggregates: the classifier and the
    breathiness indicator are applied as [analyze_audio_characteristics]
    applies them (lines 133-159); the stored pitch and centroid are the
    aggregates themselves, so the samples use values that rounding to one
    decimal leaves unchanged. *)
Definition analysis_of (f0 centroid zcr : Q) : AudioAnalysis :=
  {| fundamental_frequency :=
       {| mean_hz := f0; min_hz := f0; max_hz := f0; std_hz := 0; range_hz := 0 |};
     spectral_characteristics :=
       {| centroid_mean_hz := centroid; rolloff_mean_hz := centroid;
          bandwidth_mean_hz := 0 |};
     voice_quality :=
       {| zero_crossing_rate_mean := zcr;
          breathiness_indicator := breathiness_indicator_of zcr |};
     voice_characteristics := categorize_voice f0 centroid zcr |}.

Definition accent_named (name : string) : gmap string json :=
  {[ "primary_accent" := JString name ]}.

(** ** More Python primitives *)

Module PyText.

(** [c.isspace()] for one character below 256: tab to carriage return,
    the four separators 28-31, the space, NEL (133) and the no-break
    space (160). *)
Definition isspace (c : ascii) : bool :=
  let n := nat_of_ascii c in
  ((9 <=? n)%nat && (n <=? 13)%nat) || ((28 <=? n)%nat && (n <=? 32)%nat)
  || (n =? 133)%nat || (n =? 160)%nat.

(** [s.lstrip()]. *)
Fixpoint lstrip (s : string) : string :=
  match s with
  | EmptyString => EmptyString
  | String c t => if isspace c then lstrip t else s
  end.

(** [s.rstrip()]. *)
Fixpoint rstrip (s : string) : string :=
  match s with
  | EmptyString => EmptyString
  | String c t =>
      match rstrip t with
      | EmptyString => if isspace c then EmptyString else String c EmptyString
      | t' => String c t'
      end
  end.

(** [s.strip()]. *)
Definition strip (s : string) : string := rstrip (lstrip s).

(** [s.split(sep)] for a one-character separator: never the empty list. *)
Fixpoint split (sep : ascii) (s : string) : list string :=
  match s with
  | EmptyString => [EmptyString]
  | String c t =>
      if Ascii.eqb c sep then EmptyString :: split sep t
      else match split sep t with
           | h :: r => String c h :: r
           | [] => [String c EmptyString]
           end
  end.

(** [sep.join(parts)] for a one-character separator. *)
Fixpoint join (sep : ascii) (parts : list string) : string :=
  match parts with
  | [] => EmptyString
  | [x] => x
  | x :: r => x +:+ String sep (join sep r)
  end.

(** [xs[1:-1]]: without the first and the last element; empty for fewer
    than three elements. *)
Definition inner {A : Type} (xs : list A) : list A := removelast (tl xs).

(** [s.startswith(p)]. *)
Definition startswith (p s : string) : bool := String.prefix p s.

(** [s[:n]]. *)
Definition take (n : nat) (s : string) : string := String.substring 0 n s.

(** [s.replace(a, b)] for one-character [a] and [b]. *)
Fixpoint replace (a b : ascii) (s : string) : string :=
  match s with
  | EmptyString => EmptyString
  | String c t => String (if Ascii.eqb c a then b else c) (replace a b t)
  end.

(** [round(x, ndigits)] on a float: the nearest multiple of
    [10 ** -ndigits], ties on the exact value to the even one. *)
Definition round_nd (x : Q) (ndigits : nat) : Q :=
  let scale := inject_Z (10 ^ Z.of_nat ndigits) in
  inject_Z (PyNum.round (x * scale)) / scale.

End PyText.

(** ** The pitch aggregates of [analyze_audio_characteristics]

    Lines 50-58.  The pitch track is the array [pyin] returns, one entry
    per frame, [None] standing for NaN (an unvoiced frame).  [np.min] and
    [np.max] are exact on floats; [np.mean] and [np.std] round, so they
    are taken as the functions [np_mean] and [np_std]. *)

(** [f0[~np.isnan(f0)]]. *)
Fixpoint drop_nan (f0 : list (option Q)) : list Q :=
  match f0 with
  | [] => []
  | Some x :: r => x :: drop_nan r
  | None :: r => drop_nan r
  end.

(** [np.min] of a non-empty array, given as head and tail. *)
Fixpoint np_min (x : Q) (xs : list Q) : Q :=
  match xs with
  | [] => x
  | y :: r => np_min (if PyNum.ltb y x then y else x) r
  end.

(** [np.max] of a non-empty array, given as head and tail. *)
Fixpoint np_max (x : Q) (xs : list Q) : Q :=
  match xs with
  | [] => x
  | y :: r => np_max (if PyNum.gtb y x then y else x) r
  end.

Record PitchAggregates := {
  f0_mean : Q;
  f0_min : Q;
  f0_max : Q;
  f0_std : Q
}.

Definition pitch_aggregates (np_mean np_std : list Q -> Q)
    (f0 : list (option Q)) : PitchAggregates :=
  match drop_nan f0 with
  | x :: xs =>
      {| f0_mean := np_mean (x :: xs); f0_min := np_min x xs;
         f0_max := np_max x xs; f0_std := np_std (x :: xs) |}
  | [] => {| f0_mean := 0; f0_min := 0; f0_max := 0; f0_std := 0 |}
  end.

(** ** The answer text handed to [json.loads] in [analyze_accent]

    Lines 363-366: the answer is stripped, and when it starts with a code
    fence its first and last lines are dropped. *)
Definition strip_code_fence (content : string) : string :=
  let response_text := PyText.strip content in
  if PyText.startswith "```" response_text then
    let lines := PyText.split "010" response_text in
    PyText.join "010" (PyText.inner lines)
  else response_text.

(** ** The report's time stamp ([generate_pdf], line 183)

    [metadata.get("analysis_timestamp", "")[:19].replace("T", " ")], for a
    metadata entry that is a string or is missing. *)
Definition timestamp_text (analysis_timestamp : option string) : string :=
  PyText.replace "T" " " (PyText.take 19 (default "" analysis_timestamp)).

(** ** The dict [analyze_audio_characteristics] returns

    Lines 133-159, from the pitch aggregates and the means of the spectral
    centroid, roll-off, bandwidth and zero-crossing rate: the classifier
    and the breathiness test read the unrounded means, the stored numbers
    are rounded. *)
Definition audio_report (agg : PitchAggregates)
    (centroid rolloff bandwidth zcr : Q) : AudioAnalysis :=
  let voice_characteristics := categorize_voice (f0_mean agg) centroid zcr in
  {| fundamental_frequency :=
       {| mean_hz := PyText.round_nd (f0_mean agg) 1;
          min_hz := PyText.round_nd (f0_min agg) 1;
          max_hz := PyText.round_nd (f0_max agg) 1;
          std_hz := PyText.round_nd (f0_std agg) 1;
          range_hz := PyText.round_nd (f0_max agg - f0_min agg) 1 |};
     spectral_characteristics :=
       {| centroid_mean_hz := PyText.round_nd centroid 1;
          rolloff_mean_hz := PyText.round_nd rolloff 1;
          bandwidth_mean_hz := PyText.round_nd bandwidth 1 |};
     voice_quality :=
       {| zero_crossing_rate_mean := PyText.round_nd zcr 4;
          breathiness_indicator := breathiness_indicator_of zcr |};
     voice_characteristics := voice_characteristics |}.

(** * Vocabulary of the statements *)

(** [needle] occurs in [hay]: some text before it, some after. *)
Definition occurs (needle hay : string) : Prop :=
  exists pre post, hay = pre +:+ needle +:+ post.

(** The two pitch labels of a classification. *)
Definition pitch_labels (v : VoiceCharacteristics) : string * string :=
  (voice_type v, voice_range v).

(** An accent record the engine accepts: the [primary_accent] entry is a
    string, or is missing. *)
Definition accent_well_formed (acc : gmap string json) : Prop :=
  match acc !! "primary_accent" with
  | None | Some (JString _) => True
  | Some _ => False
  end.

(** The accent name the engine reads: the entry, or the default. *)
Definition primary_accent (acc : gmap string json) : string :=
  match acc !! "primary_accent" with
  | Some (JString s) => s
  | _ => ""
  end.

(** The state after the six band rules have run, in source order. *)
Definition rule_chain (a : AudioAnalysis) : Rules.state :=
  let f0 := mean_hz (fundamental_frequency a) in
  let voice_chars := voice_characteristics a in
  Rules.mud_reduction
    (Rules.breathiness_handling (breathiness_indicator (voice_quality a))
       (Rules.brightness_control voice_chars
          (Rules.presence f0
             (Rules.low_end f0 voice_chars Rules.init)))).

(** The number of the rule that makes a band, read off its description
    (0 for a band no rule makes). *)
Definition rule_index (b : EQBand) : nat :=
  let d := description b in
  if String.eqb d "Remove sub-bass rumble" then 1
  else if String.eqb d "Add warmth and body" then 2
  else if String.eqb d "Enhance presence and clarity" then 3
  else if String.eqb d "Control sibilance" then 4
  else if String.eqb d "Add air and sparkle" then 4
  else if String.eqb d "Control breathiness (optional)" then 5
  else if String.eqb d "Reduce muddiness (if needed)" then 6
  else 0.

(** What each rule contributes to [eq_bands]. *)
Definition high_pass_part (f0 : Q) : list EQBand :=
  if PyNum.gtb f0 0 then [Rules.high_pass_band (PyNum.max 60 (f0 * (1 # 2)))]
  else [].

Definition warmth_part (f0 : Q) (vc : VoiceCharacteristics) : list EQBand :=
  if PyNum.gtb f0 0 && PyStr.mem (voice_range vc) ["low"; "low-mid"]
  then [Rules.warmth_band f0] else [].

Definition presence_freq (f0 : Q) : Z :=
  if PyNum.ltb f0 200 then 2500%Z else 3000%Z.

Definition brightness_part (vc : VoiceCharacteristics) : list EQBand :=
  if String.eqb (brightness vc) "very bright/sibilant" then [Rules.sibilance_band]
  else if String.eqb (brightness vc) "dark/warm" then [Rules.air_band]
  else [].

Definition breathiness_part (b : string) : list EQBand :=
  if String.eqb b "high" then [Rules.breathiness_band] else [].

(** The recommendation sentence that belongs to a band: the sentence of
    the rule that makes the band, citing the band's own frequency. *)
Definition recommendation_of_band (b : EQBand) : string :=
  match rule_index b with
  | 1 => "Apply high-pass filter at " +:+ PyNum.str (frequency_hz b)
         +:+ " Hz to remove rumble without affecting voice fundamentals"
  | 2 => "Consider subtle boost (+1-2 dB) around " +:+ PyNum.str (frequency_hz b)
         +:+ " Hz to add warmth and body"
  | 3 => "Boost presence around " +:+ PyNum.str (frequency_hz b)
         +:+ " Hz (+2-3 dB) for clarity and intelligibility"
  | 4 => if String.eqb (type b) "high-shelf"
         then "Add air and sparkle with a gentle high shelf boost (+2-3 dB) above 10 kHz"
         else "Apply de-esser or reduce 5-8 kHz range (-2-4 dB) to control sibilance"
  | 5 => "Consider reducing 4-6 kHz slightly (-1-2 dB) to manage breathiness, or embrace it for intimacy"
  | 6 => "Cut 200-400 Hz range slightly (-1-3 dB) if voice sounds muddy or boxy"
  | _ => ""
  end.

(** Every character of [s] is white space. *)
Fixpoint all_space (s : string) : bool :=
  match s with
  | EmptyString => true
  | String c t => PyText.isspace c && all_space t
  end.

(** [c] is no character of [s]. *)
Fixpoint char_free (c : ascii) (s : string) : bool :=
  match s with
  | EmptyString => true
  | String d t => negb (Ascii.eqb d c) && char_free c t
  end.

(** * Sample runs *)

Example categorize_110 :
  categorize_voice 110 1200 (3 # 100)
  = {| voice_type := "bass"; voice_range := "low"; brightness := "dark/warm" |}.
Proof. reflexivity. Qed.

Example round_examples :
  (PyNum.round (5 # 2), PyNum.round (7 # 2), PyNum.round (-5 # 2),
   PyNum.round (7525 # 100), PyNum.format_0f 60, PyNum.format_0f 0)
  = (2%Z, 4%Z, (-2)%Z, 75%Z, "60", "0").
Proof. reflexivity. Qed.

Example lower_examples :
  (PyStr.lower "Irish English", PyStr.lower "IRISH",
   PyStr.contains "irish" "northern irish", PyStr.contains "irish" "iris")
  = ("irish english", "irish", true, false).
Proof. reflexivity. Qed.


(** * Facts about the Python primitives *)

Module PyNumFacts.

Lemma ltb_lt (x y : Q) : PyNum.ltb x y = true <-> (x < y)%Q.
Proof.
  unfold PyNum.ltb. rewrite negb_true_iff. split.
  - intros H. apply Qnot_le_lt. intros Hle.
    apply Qle_bool_iff in Hle. congruence.
  - intros Hlt. destruct (Qle_bool y x) eqn:E; [|reflexivity].
    apply Qle_bool_iff in E. exfalso. exact (Qlt_not_le _ _ Hlt E).
Qed.

Lemma ltb_ge (x y : Q) : PyNum.ltb x y = false <-> (y <= x)%Q.
Proof.
  unfold PyNum.ltb. rewrite negb_false_iff. apply Qle_bool_iff.
Qed.

Lemma gtb_gt (x y : Q) : PyNum.gtb x y = true <-> (y < x)%Q.
Proof. apply ltb_lt. Qed.

Lemma gtb_le (x y : Q) : PyNum.gtb x y = false <-> (x <= y)%Q.
Proof. apply ltb_ge. Qed.

(** The two cases of a float comparison, as a proof step. *)
Lemma ltb_cases (x y : Q) :
  (PyNum.ltb x y = true /\ (x < y)%Q) \/ (PyNum.ltb x y = false /\ (y <= x)%Q).
Proof.
  destruct (PyNum.ltb x y) eqn:E.
  - left. split; [reflexivity | now apply ltb_lt].
  - right. split; [reflexivity | now apply ltb_ge].
Qed.

(** Python's [max] on two floats is the mathematical maximum, and returns
    the very argument [Qmax] returns. *)
Lemma max_Qmax (a b : Q) : PyNum.max a b = Qmax a b.
Proof.
  unfold PyNum.max, Qmax, GenericMinMax.gmax.
  destruct (ltb_cases a b) as [[E H] | [E H]]; unfold PyNum.gtb; rewrite E;
    destruct (Qcompare_spec a b) as [He | Hl | Hg]; try reflexivity.
  - rewrite He in H. now apply Qlt_irrefl in H.
  - exfalso. exact (Qlt_irrefl _ (Qlt_trans _ _ _ H Hg)).
  - exfalso. exact (Qlt_not_le _ _ Hl H).
Qed.

(** [round] on a value that is already an integer. *)
Lemma round_Z (n : Z) : PyNum.round (inject_Z n) = n.
Proof.
  unfold PyNum.round. rewrite Qfloor_Z.
  destruct (Qcompare_spec (inject_Z n - inject_Z n) (1 # 2)) as [He | Hl | Hg];
    try reflexivity; exfalso.
  - setoid_replace (inject_Z n - inject_Z n)%Q with 0%Q using relation Qeq in He by ring. discriminate.
  - setoid_replace (inject_Z n - inject_Z n)%Q with 0%Q using relation Qeq in Hg by ring. discriminate.
Qed.

(** [round] is within one half of its argument. *)
Lemma round_near (x : Q) :
  (inject_Z (PyNum.round x) - (1 # 2) <= x)%Q
  /\ (x <= inject_Z (PyNum.round x) + (1 # 2))%Q.
Proof.
  unfold PyNum.round.
  pose proof (Qfloor_le x) as Hlo. pose proof (Qlt_floor x) as Hhi.
  rewrite inject_Z_plus in Hhi.
  set (f := inject_Z (Qfloor x)) in *.
  assert (Hup : forall y : Q, (y <= x -> y - (1 # 2) <= x)%Q).
  { intros y Hy. apply Qle_trans with y; [|exact Hy].
    rewrite <- (Qplus_0_r y) at 2. apply Qplus_le_r. discriminate. }
  destruct (Qcompare_spec (x - f) (1 # 2)) as [He | Hl | Hg].
  - assert (Hx : (x == f + (1 # 2))%Q).
    { rewrite <- He. ring. }
    destruct (Z.even (Qfloor x)).
    + fold f. split; [now apply Hup | rewrite Hx; apply Qle_refl].
    + rewrite inject_Z_plus. fold f. split.
      * rewrite Hx. setoid_replace (f + inject_Z 1 - (1 # 2))%Q with (f + (1 # 2))%Q using relation Qeq by ring.
        apply Qle_refl.
      * apply Qlt_le_weak. apply Qlt_le_trans with (f + inject_Z 1)%Q; [exact Hhi|].
        rewrite <- (Qplus_0_r (f + inject_Z 1)) at 1. apply Qplus_le_r. discriminate.
  - fold f. split; [now apply Hup|].
    apply Qlt_le_weak.
    setoid_replace x with (f + (x - f))%Q using relation Qeq at 1 by ring.
    now apply Qplus_lt_r.
  - rewrite inject_Z_plus. fold f. split.
    + apply Qlt_le_weak.
      setoid_replace x with (f + (x - f))%Q using relation Qeq by ring.
      setoid_replace (f + inject_Z 1 - (1 # 2))%Q with (f + (1 # 2))%Q using relation Qeq by ring.
      now apply Qplus_lt_r.
    + apply Qlt_le_weak. apply Qlt_le_trans with (f + inject_Z 1)%Q; [exact Hhi|].
      rewrite <- (Qplus_0_r (f + inject_Z 1)) at 1. apply Qplus_le_r. discriminate.
Qed.

End PyNumFacts.

Module PyStrFacts.

Lemma append_cons (c : ascii) (s t : string) :
  String c s +:+ t = String c (s +:+ t).
Proof. reflexivity. Qed.

Lemma append_nil (t : string) : "" +:+ t = t.
Proof. reflexivity. Qed.

Lemma prefix_app (p s : string) :
  String.prefix p s = true <-> exists post, s = p +:+ post.
Proof.
  revert s. induction p as [|a p IH]; intros s.
  - destruct s; simpl; split; eauto.
  - destruct s as [|b s]; simpl.
    + split; [discriminate | intros [post H]; discriminate].
    + destruct (ascii_dec a b) as [->|Hne].
      * rewrite IH. split; intros [post H]; exists post.
        -- rewrite append_cons. now rewrite H.
        -- rewrite append_cons in H. congruence.
      * split; [discriminate | intros [post H]].
        rewrite append_cons in H. congruence.
Qed.

Lemma contains_occurs (needle hay : string) :
  PyStr.contains needle hay = true <-> occurs needle hay.
Proof.
  unfold occurs. induction hay as [|c hay IH].
  - cbn [PyStr.contains]. rewrite orb_false_r, prefix_app. split.
    + intros [post H]. exists "", post. exact H.
    + intros [pre [post H]]. destruct pre; [eauto | discriminate].
  - cbn [PyStr.contains]. rewrite orb_true_iff, IH, prefix_app. split.
    + intros [[post H] | [pre [post H]]].
      * exists "", post. exact H.
      * exists (String c pre), post. rewrite append_cons. now rewrite H.
    + intros [pre [post H]]. destruct pre as [|d pre].
      * left. rewrite append_nil in H. eauto.
      * right. rewrite append_cons in H. exists pre, post. congruence.
Qed.

Lemma not_contains_occurs (needle hay : string) :
  PyStr.contains needle hay = false <-> ~ occurs needle hay.
Proof.
  rewrite <- contains_occurs. destruct (PyStr.contains needle hay); split;
    congruence.
Qed.

Lemma lower_app (s t : string) :
  PyStr.lower (s +:+ t) = PyStr.lower s +:+ PyStr.lower t.
Proof.
  induction s as [|c s IH]; [reflexivity|].
  rewrite append_cons. cbn [PyStr.lower]. now rewrite append_cons, IH.
Qed.

Lemma lower_char_idem (c : ascii) :
  PyStr.lower_char (PyStr.lower_char c) = PyStr.lower_char c.
Proof. destruct c as [[] [] [] [] [] [] [] []]; reflexivity. Qed.

Lemma lower_idem (s : string) : PyStr.lower (PyStr.lower s) = PyStr.lower s.
Proof.
  induction s as [|c s IH]; simpl; [reflexivity|].
  now rewrite lower_char_idem, IH.
Qed.

(** Lower-casing keeps occurrences: a keyword spelled in any case in the
    accent is found, lower-cased, in the lower-cased accent. *)
Lemma occurs_lower (needle hay : string) :
  occurs needle hay -> occurs (PyStr.lower needle) (PyStr.lower hay).
Proof.
  intros [pre [post ->]]. exists (PyStr.lower pre), (PyStr.lower post).
  now rewrite !lower_app.
Qed.

Lemma mem_In (x : string) (xs : list string) :
  PyStr.mem x xs = true <-> In x xs.
Proof.
  unfold PyStr.mem. rewrite existsb_exists. split.
  - intros [y [Hy E]]. apply String.eqb_eq in E. now subst.
  - intros H. exists x. split; [exact H | apply String.eqb_refl].
Qed.

End PyStrFacts.

(** * The classifier *)

Section Classifier.

Import PyNumFacts.

(** Splits every float comparison of the goal into its two outcomes, with
    the order fact in the context. *)
Ltac split_ltb :=
  repeat match goal with
  | |- context [PyNum.ltb ?x ?y] =>
      let E := fresh "E" in let H := fresh "H" in
      destruct (ltb_cases x y) as [[E H] | [E H]]; rewrite E
  end.

(** C3, the breathiness indicator as the code computes it: 'high' iff
    z > 0.1, 'moderate' iff 0.05 < z <= 0.1, 'low' iff z <= 0.05; every z
    gets exactly one of the three labels (the labels are distinct and the
    indicator is a function).  The value z = 0.05 itself is 'low'. *)
Theorem breathiness_buckets (z : Q) :
  (breathiness_indicator_of z = "high" <-> (1 # 10 < z)%Q)
  /\ (breathiness_indicator_of z = "moderate"
      <-> (1 # 20 < z)%Q /\ (z <= 1 # 10)%Q)
  /\ (breathiness_indicator_of z = "low" <-> (z <= 1 # 20)%Q)
  /\ (breathiness_indicator_of z = "high"
      \/ breathiness_indicator_of z = "moderate"
      \/ breathiness_indicator_of z = "low").
Proof.
  unfold breathiness_indicator_of, PyNum.gtb.
  split_ltb; repeat split; intros; try discriminate; try tauto; try lra.
Qed.

Lemma breathiness_buckets_witness :
  breathiness_indicator_of (3 # 40) = "moderate".
Proof.
  apply (proj1 (proj2 (breathiness_buckets (3 # 40)))).
  split; [reflexivity | discriminate].
Defined.

(** C3 as stated fails at z = 0.05: the value lies in the closed range
    0.05..0.1, yet the indicator is 'low', not 'moderate'. *)
Lemma breathiness_at_0_05 :
  ((1 # 20 <= 1 # 20)%Q /\ (1 # 20 <= 1 # 10)%Q)
  /\ breathiness_indicator_of (1 # 20) = "low"
  /\ breathiness_indicator_of (1 # 20) <> "moderate".
Proof. repeat split; discriminate. Qed.

(** C4: [categorize_voice] labels every mean pitch by half-open
    intervals whose lower bound belongs to the bucket: below 130 bass/low,
    130 to below 155 baritone/low-mid, 155 to below 180 tenor/low-mid,
    180 to below 220 alto/mid, 220 to below 250 mezzo-soprano/mid, 250 and
    above soprano/high; the boundary values 130, 155, 180, 220 and 250 take
    the higher label, and zero and negative pitch are bass/low. *)
Theorem categorize_voice_pitch_buckets :
  (forall p c z : Q,
      let v := categorize_voice p c z in
      ((p < 130)%Q -> pitch_labels v = ("bass", "low"))
      /\ ((130 <= p)%Q -> (p < 155)%Q -> pitch_labels v = ("baritone", "low-mid"))
      /\ ((155 <= p)%Q -> (p < 180)%Q -> pitch_labels v = ("tenor", "low-mid"))
      /\ ((180 <= p)%Q -> (p < 220)%Q -> pitch_labels v = ("alto", "mid"))
      /\ ((220 <= p)%Q -> (p < 250)%Q -> pitch_labels v = ("mezzo-soprano", "mid"))
      /\ ((250 <= p)%Q -> pitch_labels v = ("soprano", "high"))
      /\ ((p <= 0)%Q -> pitch_labels v = ("bass", "low")))
  /\ (forall c z : Q,
      pitch_labels (categorize_voice (129999 # 1000) c z) = ("bass", "low")
      /\ pitch_labels (categorize_voice 130 c z) = ("baritone", "low-mid")
      /\ pitch_labels (categorize_voice (154999 # 1000) c z) = ("baritone", "low-mid")
      /\ pitch_labels (categorize_voice 155 c z) = ("tenor", "low-mid")
      /\ pitch_labels (categorize_voice (179999 # 1000) c z) = ("tenor", "low-mid")
      /\ pitch_labels (categorize_voice 180 c z) = ("alto", "mid")
      /\ pitch_labels (categorize_voice (219999 # 1000) c z) = ("alto", "mid")
      /\ pitch_labels (categorize_voice 220 c z) = ("mezzo-soprano", "mid")
      /\ pitch_labels (categorize_voice (249999 # 1000) c z) = ("mezzo-soprano", "mid")
      /\ pitch_labels (categorize_voice 250 c z) = ("soprano", "high")).
Proof.
  split.
  - intros p c z v. subst v. unfold pitch_labels, categorize_voice.
    split_ltb; cbn [voice_type voice_range];
      repeat split; intros; try reflexivity; exfalso; lra.
  - intros c z. repeat split.
Qed.

Lemma categorize_voice_pitch_buckets_witness :
  pitch_labels (categorize_voice (1425 # 10) 2000 (1 # 20))
  = ("baritone", "low-mid").
Proof.
  apply (proj1 (proj2 (proj1 categorize_voice_pitch_buckets
                         (1425 # 10)%Q 2000%Q (1 # 20)%Q))).
  - discriminate.
  - reflexivity.
Defined.

End Classifier.

(** * The rule engine *)

Module RulesFacts.

Import PyNumFacts PyStrFacts.

(** The plan of a well-formed call: the engine returns, and every entry of
    the plan is determined as follows. *)
Lemma generate_ok (a : AudioAnalysis) (acc : gmap string json) :
  accent_well_formed acc ->
  generate_eq_recommendations a acc
  = Ok {| summary := "Voice profile: " +:+ voice_type (voice_characteristics a)
                     +:+ " with " +:+ brightness (voice_characteristics a)
                     +:+ " tonal quality";
          recommendations := Rules.recs (rule_chain a);
          eq_bands := Rules.bands (rule_chain a);
          accent_specific_tips := Rules.accent_tips (PyStr.lower (primary_accent acc));
          processing_suggestions := Rules.processing |}.
Proof.
  unfold accent_well_formed, primary_accent, generate_eq_recommendations.
  destruct (acc !! "primary_accent") as [[]|]; intros H;
    try contradiction; reflexivity.
Qed.

(** An accent entry that is present and not a string makes the call fail. *)
Lemma generate_raises (a : AudioAnalysis) (acc : gmap string json) :
  ~ accent_well_formed acc ->
  exists e, generate_eq_recommendations a acc = Raise e.
Proof.
  unfold accent_well_formed, generate_eq_recommendations.
  destruct (acc !! "primary_accent") as [[]|]; intros H;
    try (exfalso; now apply H); eexists; reflexivity.
Qed.

(** The bands in source order: one block per rule. *)
Lemma bands_rule_chain (a : AudioAnalysis) :
  let f0 := mean_hz (fundamental_frequency a) in
  let vc := voice_characteristics a in
  Rules.bands (rule_chain a)
  = high_pass_part f0 ++ warmth_part f0 vc
    ++ [Rules.presence_band (presence_freq f0)]
    ++ brightness_part vc
    ++ breathiness_part (breathiness_indicator (voice_quality a))
    ++ [Rules.mud_band].
Proof.
  intros f0 vc. unfold rule_chain. fold f0 vc.
  unfold Rules.mud_reduction, Rules.breathiness_handling,
    Rules.brightness_control, Rules.presence, Rules.low_end,
    high_pass_part, warmth_part, brightness_part, breathiness_part,
    presence_freq.
  destruct (PyNum.gtb f0 0); cbn [andb];
    destruct (PyStr.mem (voice_range vc) ["low"; "low-mid"]);
    destruct (String.eqb (brightness vc) "very bright/sibilant");
    destruct (String.eqb (brightness vc) "dark/warm");
    destruct (String.eqb (breathiness_indicator (voice_quality a)) "high");
    reflexivity.
Qed.

(** Every rule appends to both lists at once. *)
Lemma emit_lengths (r : string) (b : EQBand) (st : Rules.state) :
  length (Rules.recs st) = length (Rules.bands st) ->
  length (Rules.recs (Rules.emit r b st))
  = length (Rules.bands (Rules.emit r b st)).
Proof. intros H. unfold Rules.emit. cbn. rewrite !length_app, H. reflexivity. Qed.

Lemma recs_bands_length (a : AudioAnalysis) :
  length (Rules.recs (rule_chain a)) = length (Rules.bands (rule_chain a)).
Proof.
  unfold rule_chain, Rules.mud_reduction, Rules.breathiness_handling,
    Rules.brightness_control, Rules.presence, Rules.low_end.
  repeat match goal with
  | |- context [if ?c then _ else _] => destruct c
  end; repeat apply emit_lengths; reflexivity.
Qed.

End RulesFacts.

(** * Properties of the plan *)

Section Plan.

Import PyNumFacts PyStrFacts RulesFacts.

Variable a : AudioAnalysis.
Variable acc : gmap string json.
Hypothesis acc_ok : accent_well_formed acc.

Let f0 : Q := mean_hz (fundamental_frequency a).
Let vc : VoiceCharacteristics := voice_characteristics a.
Let breathiness : string := breathiness_indicator (voice_quality a).

(** Case analysis on the five tests the band rules make. *)
Ltac rule_cases :=
  unfold high_pass_part, warmth_part, brightness_part, breathiness_part;
  destruct (PyNum.gtb f0 0) eqn:Epitch; cbn [andb];
  destruct (PyStr.mem (voice_range vc) ["low"; "low-mid"]) eqn:Erange;
  destruct (String.eqb_spec (brightness vc) "very bright/sibilant") as [Esib | Esib];
  destruct (String.eqb_spec (brightness vc) "dark/warm") as [Eair | Eair];
  destruct (String.eqb_spec breathiness "high") as [Ebreath | Ebreath].

(** C5: the bands come out in the fixed rule order: high-pass (if any),
    warmth bell (if any), presence bell, brightness band (if any),
    breathiness band (if any), mud-reduction bell; the rule numbers read
    along [eq_bands] increase strictly, so no rule's band is out of place
    or repeated. *)
Theorem eq_bands_rule_order :
  exists plan,
    generate_eq_recommendations a acc = Ok plan
    /\ (exists hp warm bright breath : list EQBand,
          eq_bands plan
          = hp ++ warm ++ [Rules.presence_band (presence_freq f0)]
            ++ bright ++ breath ++ [Rules.mud_band]
          /\ (hp = [] \/ exists f, hp = [Rules.high_pass_band f])
          /\ (warm = [] \/ warm = [Rules.warmth_band f0])
          /\ (bright = [] \/ bright = [Rules.sibilance_band]
              \/ bright = [Rules.air_band])
          /\ (breath = [] \/ breath = [Rules.breathiness_band]))
    /\ StronglySorted lt (map rule_index (eq_bands plan))
    /\ Forall (fun i => 1 <= i <= 6) (map rule_index (eq_bands plan)).
Proof.
  eexists. split; [apply generate_ok, acc_ok|]. cbn [eq_bands].
  rewrite bands_rule_chain. fold f0 vc breathiness. split; [|split].
  - exists (high_pass_part f0), (warmth_part f0 vc), (brightness_part vc),
      (breathiness_part breathiness).
    split; [reflexivity|].
    rule_cases; repeat split; eauto.
  - rule_cases; cbn; repeat constructor; lia.
  - rule_cases; cbn; repeat constructor; lia.
Qed.

(** Unfolds the band constants and settles equalities between bands. *)
Ltac band_eqs :=
  unfold Rules.high_pass_band, Rules.warmth_band, Rules.presence_band,
    Rules.sibilance_band, Rules.air_band, Rules.breathiness_band,
    Rules.mud_band in *;
  cbn [In app type description frequency_hz gain_db q] in *;
  intuition (subst; cbn [type description] in *; try discriminate; try congruence).

(** C6: the sibilance cut (6500 Hz bell, gain "-2 to -4", Q 2.0) is in
    [eq_bands] iff brightness is "very bright/sibilant"; the air shelf
    (10000 Hz high-shelf, gain "+2 to +3") is in [eq_bands] iff brightness
    is "dark/warm"; so neither is there for "balanced" and "bright", and
    the two are never there together. *)
Theorem brightness_band_exclusive :
  exists plan,
    generate_eq_recommendations a acc = Ok plan
    /\ (In Rules.sibilance_band (eq_bands plan)
        <-> brightness vc = "very bright/sibilant")
    /\ (In Rules.air_band (eq_bands plan) <-> brightness vc = "dark/warm")
    /\ (brightness vc = "balanced" \/ brightness vc = "bright" ->
        ~ In Rules.sibilance_band (eq_bands plan)
        /\ ~ In Rules.air_band (eq_bands plan))
    /\ ~ (In Rules.sibilance_band (eq_bands plan)
          /\ In Rules.air_band (eq_bands plan)).
Proof.
  eexists. split; [apply generate_ok, acc_ok|]. cbn [eq_bands].
  rewrite bands_rule_chain. fold f0 vc breathiness.
  rule_cases; band_eqs.
Qed.

(** The only band of type "high-pass" is the one the first rule makes,
    and it is there only for a positive pitch. *)
Lemma high_pass_unique (b : EQBand) :
  In b (Rules.bands (rule_chain a)) -> type b = "high-pass" ->
  (0 < f0)%Q /\ b = Rules.high_pass_band (Qmax 60 (f0 * (1 # 2))).
Proof.
  rewrite bands_rule_chain. fold f0 vc breathiness.
  rewrite <- max_Qmax. rewrite <- gtb_gt.
  rule_cases; band_eqs.
Qed.

(** C7, as the code computes it: a band of type "high-pass" is in
    [eq_bands] iff the mean pitch is positive, and its cutoff is
    max(60, 0.5 * pitch) rounded to the nearest integer (ties to even), so
    within one half of that maximum; for a mean pitch of 110 it is 60. *)
Theorem high_pass_rule :
  exists plan,
    generate_eq_recommendations a acc = Ok plan
    /\ ((exists b, In b (eq_bands plan) /\ type b = "high-pass")
        <-> (0 < f0)%Q)
    /\ (forall b, In b (eq_bands plan) -> type b = "high-pass" ->
        frequency_hz b = PyNum.round (Qmax 60 (f0 * (1 # 2)))
        /\ (inject_Z (frequency_hz b) - (1 # 2) <= Qmax 60 (f0 * (1 # 2)))%Q
        /\ (Qmax 60 (f0 * (1 # 2)) <= inject_Z (frequency_hz b) + (1 # 2))%Q)
    /\ (f0 = 110%Q -> forall b, In b (eq_bands plan) ->
        type b = "high-pass" -> frequency_hz b = 60%Z).
Proof.
  eexists. split; [apply generate_ok, acc_ok|]. cbn [eq_bands].
  split; [|split].
  - split.
    + intros [b [Hin Hty]]. now apply (high_pass_unique b).
    + intros Hpos. apply gtb_gt in Hpos.
      exists (Rules.high_pass_band (PyNum.max 60 (f0 * (1 # 2)))).
      split; [|reflexivity].
      rewrite bands_rule_chain. fold f0 vc breathiness.
      unfold high_pass_part. rewrite Hpos. now left.
  - intros b Hin Hty. destruct (high_pass_unique b Hin Hty) as [_ ->].
    cbn [frequency_hz Rules.high_pass_band].
    split; [reflexivity | apply round_near].
  - intros H110 b Hin Hty. destruct (high_pass_unique b Hin Hty) as [_ ->].
    rewrite H110. reflexivity.
Qed.

(** C8: with a mean pitch of zero the engine still returns a plan; no
    band is of type "high-pass" and none is the warmth bell, whatever the
    voice range; the presence bell (at 2500 Hz), the mud-reduction bell and
    the three processing suggestions are there; and the brightness and
    breathiness bands are there exactly under their usual conditions. *)
Theorem unvoiced_plan :
  (f0 == 0)%Q ->
  exists plan,
    generate_eq_recommendations a acc = Ok plan
    /\ (forall b, In b (eq_bands plan) -> type b <> "high-pass")
    /\ (forall b, In b (eq_bands plan) -> description b <> "Add warmth and body")
    /\ In (Rules.presence_band 2500) (eq_bands plan)
    /\ In Rules.mud_band (eq_bands plan)
    /\ processing_suggestions plan
       = ["Apply subtle compression (2:1 to 4:1 ratio) for consistent levels";
          "Use a noise gate if there's background noise between phrases";
          "Consider gentle saturation/warmth for added character"]
    /\ (In Rules.sibilance_band (eq_bands plan)
        <-> brightness vc = "very bright/sibilant")
    /\ (In Rules.air_band (eq_bands plan) <-> brightness vc = "dark/warm")
    /\ (In Rules.breathiness_band (eq_bands plan) <-> breathiness = "high").
Proof.
  intros Hzero. eexists. split; [apply generate_ok, acc_ok|].
  cbn [eq_bands processing_suggestions].
  rewrite bands_rule_chain. fold f0 vc breathiness.
  assert (Hpitch : PyNum.gtb f0 0 = false) by (apply gtb_le; lra).
  assert (Hpres : presence_freq f0 = 2500%Z).
  { unfold presence_freq.
    assert (E : PyNum.ltb f0 200 = true) by (apply ltb_lt; lra).
    now rewrite E. }
  rewrite Hpres.
  rule_cases; try discriminate; band_eqs.
Qed.

(** C9: every rule adds one recommendation with each band, so the two
    lists have the same length, which is at least 2 (presence and mud
    only) and at most 6 (all six rules). *)
Theorem recommendations_match_bands :
  exists plan,
    generate_eq_recommendations a acc = Ok plan
    /\ length (recommendations plan) = length (eq_bands plan)
    /\ 2 <= length (eq_bands plan) <= 6.
Proof.
  eexists. split; [apply generate_ok, acc_ok|].
  cbn [eq_bands recommendations]. split; [apply recs_bands_length|].
  rewrite bands_rule_chain. fold f0 vc breathiness.
  rule_cases; cbn; lia.
Qed.

End Plan.

(** * The accent tips *)

Section Accent.

Import PyStrFacts RulesFacts.

Variable a : AudioAnalysis.

(** C10: when the accent record has no [primary_accent] entry the engine
    still returns a plan; the call is the same as with the empty accent
    name, the tips are empty, and the other four entries of the plan are
    the ones any accent record gives. *)
Theorem missing_primary_accent (acc : gmap string json) :
  acc !! "primary_accent" = None ->
  exists plan,
    generate_eq_recommendations a acc = Ok plan
    /\ generate_eq_recommendations a (accent_named "") = Ok plan
    /\ accent_specific_tips plan = []
    /\ (forall acc' plan',
          generate_eq_recommendations a acc' = Ok plan' ->
          summary plan' = summary plan
          /\ recommendations plan' = recommendations plan
          /\ eq_bands plan' = eq_bands plan
          /\ processing_suggestions plan' = processing_suggestions plan).
Proof.
  intros Hnone.
  assert (Hwf : accent_well_formed acc)
    by (unfold accent_well_formed; now rewrite Hnone).
  assert (Hname : primary_accent acc = "")
    by (unfold primary_accent; now rewrite Hnone).
  eexists. split; [apply generate_ok, Hwf|]. rewrite Hname.
  split; [|split].
  - now rewrite generate_ok.
  - reflexivity.
  - intros acc' plan' H. unfold generate_eq_recommendations in H.
    destruct (method_lower _); [|discriminate].
    injection H as <-. repeat split.
Qed.

(** C1, as the code computes it: the keyword groups are tried in table
    order on the lower-cased accent name and only the first group with a
    keyword occurring in it gives its tips: irish/celtic, otherwise
    british/english, otherwise american, otherwise no tip.  A keyword
    spelled in any case in the accent name counts as occurring. *)
Theorem accent_tips_first_match (acc : gmap string json) (name : string) :
  acc !! "primary_accent" = Some (JString name) ->
  exists plan,
    generate_eq_recommendations a acc = Ok plan
    /\ let s := PyStr.lower name in
       let irish := occurs "irish" s \/ occurs "celtic" s in
       let british := occurs "british" s \/ occurs "english" s in
       let american := occurs "american" s in
       (irish -> accent_specific_tips plan = Rules.irish_tips)
       /\ (~ irish -> british -> accent_specific_tips plan = Rules.british_tips)
       /\ (~ irish -> ~ british -> american ->
           accent_specific_tips plan = Rules.american_tips)
       /\ (~ irish -> ~ british -> ~ american -> accent_specific_tips plan = [])
       /\ (forall kw, occurs kw name ->
           PyStr.lower kw = "irish" \/ PyStr.lower kw = "celtic" ->
           accent_specific_tips plan = Rules.irish_tips).
Proof.
  intros Hacc.
  assert (Hwf : accent_well_formed acc)
    by (unfold accent_well_formed; now rewrite Hacc).
  assert (Hname : primary_accent acc = name)
    by (unfold primary_accent; now rewrite Hacc).
  eexists. split; [apply generate_ok, Hwf|]. rewrite Hname.
  cbn [accent_specific_tips]. cbv zeta.
  assert (Hirish : occurs "irish" (PyStr.lower name)
                   \/ occurs "celtic" (PyStr.lower name) ->
                   Rules.accent_tips (PyStr.lower name) = Rules.irish_tips).
  { unfold Rules.accent_tips. rewrite <- !contains_occurs.
    intros [-> | ->]; [reflexivity | now rewrite orb_true_r]. }
  repeat split.
  - exact Hirish.
  - unfold Rules.accent_tips. rewrite <- !contains_occurs.
    intros Hi [Hb | Hb];
      destruct (PyStr.contains "irish" _); try (exfalso; apply Hi; now left);
      destruct (PyStr.contains "celtic" _); try (exfalso; apply Hi; now right);
      rewrite Hb; [reflexivity | now rewrite orb_true_r].
  - unfold Rules.accent_tips. rewrite <- !contains_occurs.
    intros Hi Hb Ha.
    destruct (PyStr.contains "irish" _); try (exfalso; apply Hi; now left).
    destruct (PyStr.contains "celtic" _); try (exfalso; apply Hi; now right).
    destruct (PyStr.contains "british" _); try (exfalso; apply Hb; now left).
    destruct (PyStr.contains "english" _); try (exfalso; apply Hb; now right).
    now rewrite Ha.
  - unfold Rules.accent_tips. rewrite <- !contains_occurs.
    intros Hi Hb Ha.
    destruct (PyStr.contains "irish" _); try (exfalso; apply Hi; now left).
    destruct (PyStr.contains "celtic" _); try (exfalso; apply Hi; now right).
    destruct (PyStr.contains "british" _); try (exfalso; apply Hb; now left).
    destruct (PyStr.contains "english" _); try (exfalso; apply Hb; now right).
    destruct (PyStr.contains "american" _); [exfalso; now apply Ha | reflexivity].
  - intros kw Hkw Hlow. apply Hirish. apply occurs_lower in Hkw.
    destruct Hlow as [E | E]; rewrite E in Hkw; [now left | now right].
Qed.

End Accent.

(** * Sample plans *)

Section Samples.

Import PyStrFacts RulesFacts.

(** The end-to-end example: pitch 110, centroid 1200, zero-crossing rate
    0.03, accent "Irish". *)
Example end_to_end :
  exists plan,
    generate_eq_recommendations (analysis_of 110 1200 (3 # 100))
      (accent_named "Irish") = Ok plan
    /\ summary plan = "Voice profile: bass with dark/warm tonal quality"
    /\ map (fun b => (type b, frequency_hz b)) (eq_bands plan)
       = [("high-pass", 60%Z); ("bell", 110%Z); ("bell", 2500%Z);
          ("high-shelf", 10000%Z); ("bell", 300%Z)]
    /\ accent_specific_tips plan = Rules.irish_tips.
Proof. eexists. split; [vm_compute; reflexivity|]. repeat split. Qed.

Lemma eq_bands_rule_order_witness :
  exists plan,
    generate_eq_recommendations (analysis_of 110 1200 (3 # 100))
      (accent_named "Irish") = Ok plan
    /\ StronglySorted lt (map rule_index (eq_bands plan)).
Proof.
  destruct (eq_bands_rule_order (analysis_of 110 1200 (3 # 100))
              (accent_named "Irish") ltac:(vm_compute; exact I))
    as (plan & Hgen & _ & Hsorted & _).
  exists plan. split; assumption.
Defined.

Lemma brightness_band_exclusive_witness :
  exists plan,
    generate_eq_recommendations (analysis_of 210 4000 (3 # 100))
      (accent_named "American") = Ok plan
    /\ In Rules.sibilance_band (eq_bands plan)
    /\ ~ In Rules.air_band (eq_bands plan).
Proof.
  destruct (brightness_band_exclusive (analysis_of 210 4000 (3 # 100))
              (accent_named "American") ltac:(vm_compute; exact I))
    as (plan & Hgen & Hsib & _ & _ & Hboth).
  exists plan. split; [exact Hgen|].
  assert (Hin : In Rules.sibilance_band (eq_bands plan))
    by (apply Hsib; reflexivity).
  split; [exact Hin | intros Hair; apply Hboth; split; assumption].
Defined.

Lemma high_pass_rule_witness :
  exists plan,
    generate_eq_recommendations (analysis_of 110 1200 (3 # 100))
      (accent_named "Irish") = Ok plan
    /\ forall b, In b (eq_bands plan) -> type b = "high-pass" ->
       frequency_hz b = 60%Z.
Proof.
  destruct (high_pass_rule (analysis_of 110 1200 (3 # 100))
              (accent_named "Irish") ltac:(vm_compute; exact I))
    as (plan & Hgen & _ & _ & H110).
  exists plan. split; [exact Hgen | apply H110; reflexivity].
Defined.

Lemma unvoiced_plan_witness :
  exists plan,
    generate_eq_recommendations (analysis_of 0 2000 (3 # 100))
      (accent_named "Irish") = Ok plan
    /\ In (Rules.presence_band 2500) (eq_bands plan)
    /\ forall b, In b (eq_bands plan) -> type b <> "high-pass".
Proof.
  destruct (unvoiced_plan (analysis_of 0 2000 (3 # 100))
              (accent_named "Irish") ltac:(vm_compute; exact I))
    as (plan & Hgen & Hhp & _ & Hpres & _).
  - reflexivity.
  - exists plan. repeat split; assumption.
Defined.

Lemma recommendations_match_bands_witness :
  exists plan,
    generate_eq_recommendations (analysis_of 110 1200 (3 # 10))
      (accent_named "Irish") = Ok plan
    /\ length (recommendations plan) = length (eq_bands plan).
Proof.
  destruct (recommendations_match_bands (analysis_of 110 1200 (3 # 10))
              (accent_named "Irish") ltac:(vm_compute; exact I))
    as (plan & Hgen & Hlen & _).
  exists plan. split; assumption.
Defined.

(** The two bounds of the common length are reached. *)
Example length_bounds_reached :
  (exists plan,
      generate_eq_recommendations (analysis_of 0 2000 (3 # 100)) ∅ = Ok plan
      /\ length (eq_bands plan) = 2)
  /\ (exists plan,
      generate_eq_recommendations (analysis_of 110 1200 (3 # 10)) ∅ = Ok plan
      /\ length (eq_bands plan) = 6).
Proof. split; eexists; (split; [vm_compute; reflexivity | reflexivity]). Qed.

Lemma missing_primary_accent_witness :
  exists plan,
    generate_eq_recommendations (analysis_of 110 1200 (3 # 100))
      {[ "confidence" := JString "high" ]} = Ok plan
    /\ accent_specific_tips plan = [].
Proof.
  destruct (missing_primary_accent (analysis_of 110 1200 (3 # 100))
              {[ "confidence" := JString "high" ]})
    as (plan & Hgen & _ & Htips & _).
  - reflexivity.
  - exists plan. split; assumption.
Defined.

Lemma accent_tips_first_match_witness :
  exists plan,
    generate_eq_recommendations (analysis_of 110 1200 (3 # 100))
      (accent_named "Irish English") = Ok plan
    /\ accent_specific_tips plan = Rules.irish_tips.
Proof.
  destruct (accent_tips_first_match (analysis_of 110 1200 (3 # 100))
              (accent_named "Irish English") "Irish English")
    as (plan & Hgen & Hirish & _).
  - reflexivity.
  - exists plan. split; [exact Hgen|]. apply Hirish. left.
    apply contains_occurs. reflexivity.
Defined.

(** C1 as stated fails on "British American": the lower-cased name
    contains both "british" and "american", yet only the british tip is
    given, not the tips of both groups. *)
Lemma accent_tips_first_group_only :
  exists plan,
    generate_eq_recommendations (analysis_of 110 1200 (3 # 100))
      (accent_named "British American") = Ok plan
    /\ PyStr.contains "british" (PyStr.lower "British American") = true
    /\ PyStr.contains "american" (PyStr.lower "British American") = true
    /\ accent_specific_tips plan = Rules.british_tips
    /\ accent_specific_tips plan <> Rules.british_tips ++ Rules.american_tips.
Proof.
  eexists. split; [vm_compute; reflexivity|].
  repeat split. discriminate.
Qed.

(** C7 as stated fails at a mean pitch of 150.5: half of it is 75.25,
    above 60, and the high-pass band carries 75. *)
Lemma high_pass_cutoff_rounded :
  exists plan b,
    generate_eq_recommendations (analysis_of (301 # 2) 2000 (3 # 100))
      (accent_named "Irish") = Ok plan
    /\ In b (eq_bands plan)
    /\ type b = "high-pass"
    /\ frequency_hz b = 75%Z
    /\ (Qmax 60 ((301 # 2) * (1 # 2)) == 301 # 4)%Q
    /\ ~ (inject_Z (frequency_hz b) == Qmax 60 ((301 # 2) * (1 # 2)))%Q.
Proof.
  eexists. eexists. split; [vm_compute; reflexivity|].
  split; [left; reflexivity|]. repeat split. discriminate.
Qed.

End Samples.

(** * Further properties of the classifier *)

Section ClassifierMore.

Import PyNumFacts.

Ltac split_float_tests :=
  repeat match goal with
  | |- context [PyNum.ltb ?x ?y] =>
      let E := fresh "E" in let H := fresh "H" in
      destruct (ltb_cases x y) as [[E H] | [E H]]; rewrite E
  end.

(** The brightness label follows the mean spectral centroid by half-open
    intervals: below 1500 dark/warm, 1500 to below 2500 balanced, 2500 to
    below 3500 bright, 3500 and above very bright/sibilant; the pitch and
    the zero-crossing rate play no part in it. *)
Theorem categorize_voice_brightness (p c z : Q) :
  (brightness (categorize_voice p c z) = "dark/warm" <-> (c < 1500)%Q)
  /\ (brightness (categorize_voice p c z) = "balanced"
      <-> (1500 <= c)%Q /\ (c < 2500)%Q)
  /\ (brightness (categorize_voice p c z) = "bright"
      <-> (2500 <= c)%Q /\ (c < 3500)%Q)
  /\ (brightness (categorize_voice p c z) = "very bright/sibilant"
      <-> (3500 <= c)%Q)
  /\ (forall p' z', brightness (categorize_voice p' c z')
                    = brightness (categorize_voice p c z)).
Proof.
  assert (Hbr : forall p0 z0, brightness (categorize_voice p0 c z0)
                = if PyNum.ltb c 1500 then "dark/warm"
                  else if PyNum.ltb c 2500 then "balanced"
                  else if PyNum.ltb c 3500 then "bright"
                  else "very bright/sibilant").
  { intros p0 z0. unfold categorize_voice.
    destruct (if PyNum.ltb p0 130 then _ else _). reflexivity. }
  rewrite !Hbr. repeat split; try (intros; rewrite !Hbr; reflexivity);
    clear Hbr; try match goal with H : _ = _ |- _ => revert H end;
    split_float_tests; intros;
    try discriminate; try reflexivity; try lra;
    try (split; lra); try (exfalso; lra);
    try (match goal with H : _ /\ _ |- _ => destruct H end; exfalso; lra).
Qed.

Lemma categorize_voice_brightness_witness :
  brightness (categorize_voice 110 2000 (1 # 20)) = "balanced".
Proof.
  apply (proj1 (proj2 (categorize_voice_brightness 110 2000 (1 # 20)))).
  split; [discriminate | reflexivity].
Defined.

(** The voice range is the register of the voice type: low for bass,
    low-mid for baritone and tenor, mid for alto and mezzo-soprano, high
    for soprano; no other pair of labels is ever produced, and the pair
    does not depend on the centroid or the zero-crossing rate. *)
Theorem voice_range_of_voice_type (p c z : Q) :
  let v := categorize_voice p c z in
  In (voice_type v, voice_range v)
     [("bass", "low"); ("baritone", "low-mid"); ("tenor", "low-mid");
      ("alto", "mid"); ("mezzo-soprano", "mid"); ("soprano", "high")]
  /\ (voice_range v = "low" <-> voice_type v = "bass")
  /\ (voice_range v = "low-mid"
      <-> voice_type v = "baritone" \/ voice_type v = "tenor")
  /\ (voice_range v = "mid"
      <-> voice_type v = "alto" \/ voice_type v = "mezzo-soprano")
  /\ (voice_range v = "high" <-> voice_type v = "soprano")
  /\ (forall c' z', pitch_labels (categorize_voice p c' z') = pitch_labels v).
Proof.
  cbv zeta. unfold pitch_labels, categorize_voice.
  destruct (PyNum.ltb p 130); [|destruct (PyNum.ltb p 180);
    [destruct (PyNum.ltb p 155)|destruct (PyNum.ltb p 250);
      [destruct (PyNum.ltb p 220)|]]];
    cbn [voice_type voice_range In];
    repeat split; intros; try reflexivity; try discriminate;
    try tauto;
    try (match goal with H : _ \/ _ |- _ => destruct H; discriminate end).
Qed.

End ClassifierMore.

(** * More facts about rounding *)

Module PyRoundFacts.

Lemma floor_le_round (x : Q) : (Qfloor x <= PyNum.round x)%Z.
Proof.
  unfold PyNum.round.
  destruct (Qcompare _ _); [destruct (Z.even _)| |]; lia.
Qed.

Lemma round_le_floor_succ (x : Q) : (PyNum.round x <= Qfloor x + 1)%Z.
Proof.
  unfold PyNum.round.
  destruct (Qcompare _ _); [destruct (Z.even _)| |]; lia.
Qed.

(** [round] never reverses the order of two floats. *)
Lemma round_mono (x y : Q) :
  (x <= y)%Q -> (PyNum.round x <= PyNum.round y)%Z.
Proof.
  intros Hxy. pose proof (Qfloor_resp_le x y Hxy) as Hfl.
  destruct (Z.eq_dec (Qfloor x) (Qfloor y)) as [E | NE].
  - unfold PyNum.round. rewrite E.
    destruct (Qcompare_spec (x - inject_Z (Qfloor y)) (1 # 2)) as [He | Hl | Hg];
      destruct (Qcompare_spec (y - inject_Z (Qfloor y)) (1 # 2)) as [He' | Hl' | Hg'];
      try destruct (Z.even (Qfloor y)); try lia; exfalso; lra.
  - pose proof (round_le_floor_succ x). pose proof (floor_le_round y). lia.
Qed.

(** The integer part of a float, between two consecutive integers. *)
Lemma floor_spec (x : Q) :
  (inject_Z (Qfloor x) <= x)%Q /\ (x < inject_Z (Qfloor x) + 1)%Q.
Proof.
  split; [apply Qfloor_le|].
  pose proof (Qlt_floor x) as H. rewrite inject_Z_plus in H. exact H.
Qed.

(** [round] gives a positive integer exactly above one half. *)
Lemma round_pos_iff (x : Q) : (0 < PyNum.round x)%Z <-> (1 # 2 < x)%Q.
Proof.
  destruct (floor_spec x) as [Hlo Hhi].
  assert (Hpos : (0 < Qfloor x)%Z -> (1 <= inject_Z (Qfloor x))%Q).
  { intros H. change 1%Q with (inject_Z 1). rewrite <- Zle_Qle. lia. }
  assert (Hneg : (Qfloor x < 0)%Z -> (inject_Z (Qfloor x) <= -1)%Q).
  { intros H. change (-1)%Q with (inject_Z (-1)). rewrite <- Zle_Qle. lia. }
  assert (Hzero : Qfloor x = 0%Z -> (inject_Z (Qfloor x) == 0)%Q).
  { intros ->. reflexivity. }
  unfold PyNum.round.
  destruct (Qcompare_spec (x - inject_Z (Qfloor x)) (1 # 2)) as [He | Hl | Hg].
  - destruct (Z.even (Qfloor x)) eqn:Ev.
    + split; intros H.
      * specialize (Hpos H). lra.
      * destruct (Z.lt_trichotomy (Qfloor x) 0) as [N | [Z0 | P]]; [| |exact P].
        -- specialize (Hneg N). lra.
        -- specialize (Hzero Z0). lra.
    + assert (Qfloor x <> 0%Z) by (intros E0; rewrite E0 in Ev; discriminate).
      split; intros H0.
      * assert (P : (0 < Qfloor x)%Z) by lia. specialize (Hpos P). lra.
      * destruct (Z.lt_trichotomy (Qfloor x) 0) as [N | [Z0 | P]]; [|lia|lia].
        specialize (Hneg N). lra.
  - split; intros H.
    + specialize (Hpos H). lra.
    + destruct (Z.lt_trichotomy (Qfloor x) 0) as [N | [Z0 | P]]; [| |exact P].
      * specialize (Hneg N). lra.
      * specialize (Hzero Z0). lra.
  - split; intros H.
    + destruct (Z.lt_trichotomy (Qfloor x) 0) as [N | [Z0 | P]]; [lia| |].
      * specialize (Hzero Z0). lra.
      * specialize (Hpos P). lra.
    + destruct (Z.lt_trichotomy (Qfloor x) 0) as [N | [Z0 | P]]; [|lia|lia].
      specialize (Hneg N). lra.
Qed.

(** Rounding to one decimal gives a positive float exactly above 0.05. *)
Lemma round_nd_1_pos_iff (x : Q) :
  (0 < PyText.round_nd x 1)%Q <-> (1 # 20 < x)%Q.
Proof.
  unfold PyText.round_nd. change (inject_Z (10 ^ Z.of_nat 1)) with 10%Q.
  pose proof (round_pos_iff (x * 10)) as Hr.
  rewrite (Zlt_Qlt 0 (PyNum.round (x * 10))) in Hr.
  change (inject_Z 0) with 0%Q in Hr.
  set (r := inject_Z (PyNum.round (x * 10))) in *.
  assert (E : (r / 10 == r * (1 # 10))%Q) by (field; discriminate).
  rewrite E. split; intros H.
  - assert (H' : (0 < r)%Q) by lra. apply Hr in H'. lra.
  - assert (H' : (1 # 2 < x * 10)%Q) by lra. apply Hr in H'. lra.
Qed.

End PyRoundFacts.

(** * Membership in the band list *)

Module BandFacts.

Import PyNumFacts PyStrFacts RulesFacts.

Lemma in_high_pass_part (f0 : Q) (b : EQBand) :
  In b (high_pass_part f0)
  <-> (0 < f0)%Q /\ b = Rules.high_pass_band (PyNum.max 60 (f0 * (1 # 2))).
Proof.
  unfold high_pass_part.
  destruct (PyNum.gtb f0 0) eqn:E;
    [apply gtb_gt in E | apply gtb_le in E]; cbn [In].
  - split; [intros [<- | []]; auto | intros [_ ->]; auto].
  - split; [intros [] | intros [H _]; lra].
Qed.

Lemma in_warmth_part (f0 : Q) (vc : VoiceCharacteristics) (b : EQBand) :
  In b (warmth_part f0 vc)
  <-> (0 < f0)%Q
      /\ (voice_range vc = "low" \/ voice_range vc = "low-mid")
      /\ b = Rules.warmth_band f0.
Proof.
  unfold warmth_part.
  assert (Hmem : PyStr.mem (voice_range vc) ["low"; "low-mid"] = true
                 <-> voice_range vc = "low" \/ voice_range vc = "low-mid").
  { rewrite mem_In. cbn [In]. intuition congruence. }
  destruct (PyNum.gtb f0 0) eqn:E;
    [apply gtb_gt in E | apply gtb_le in E]; cbn [andb].
  - destruct (PyStr.mem _ _); cbn [In].
    + split; [intros [<- | []] | intros (_ & _ & ->); auto].
      repeat split; [exact E | now apply Hmem].
    + split; [intros [] | intros (_ & H & _)].
      apply Hmem in H. discriminate.
  - cbn [In]. split; [intros [] | intros (H & _); lra].
Qed.

Lemma in_brightness_part (vc : VoiceCharacteristics) (b : EQBand) :
  In b (brightness_part vc)
  <-> (brightness vc = "very bright/sibilant" /\ b = Rules.sibilance_band)
      \/ (brightness vc = "dark/warm" /\ b = Rules.air_band).
Proof.
  unfold brightness_part.
  destruct (String.eqb_spec (brightness vc) "very bright/sibilant") as [E | E].
  - cbn [In]. split; [intros [<- | []]; auto|].
    intros [[_ ->] | [E' _]]; [auto | rewrite E in E'; discriminate].
  - destruct (String.eqb_spec (brightness vc) "dark/warm") as [E' | E'];
      cbn [In].
    + split; [intros [<- | []]; auto|].
      intros [[E'' _] | [_ ->]]; [contradiction | auto].
    + split; [intros [] | intros [[E'' _] | [E'' _]]; contradiction].
Qed.

Lemma in_breathiness_part (breathiness : string) (b : EQBand) :
  In b (breathiness_part breathiness)
  <-> breathiness = "high" /\ b = Rules.breathiness_band.
Proof.
  unfold breathiness_part.
  destruct (String.eqb_spec breathiness "high") as [E | E]; cbn [In].
  - split; [intros [<- | []]; auto | intros [_ ->]; auto].
  - split; [intros [] | intros [E' _]; contradiction].
Qed.

(** A band is in the list exactly when one of the six rules made it. *)
Lemma in_bands (a : AudioAnalysis) (b : EQBand) :
  let f0 := mean_hz (fundamental_frequency a) in
  let vc := voice_characteristics a in
  In b (Rules.bands (rule_chain a))
  <-> ((0 < f0)%Q /\ b = Rules.high_pass_band (PyNum.max 60 (f0 * (1 # 2))))
      \/ ((0 < f0)%Q
          /\ (voice_range vc = "low" \/ voice_range vc = "low-mid")
          /\ b = Rules.warmth_band f0)
      \/ b = Rules.presence_band (presence_freq f0)
      \/ (brightness vc = "very bright/sibilant" /\ b = Rules.sibilance_band)
      \/ (brightness vc = "dark/warm" /\ b = Rules.air_band)
      \/ (breathiness_indicator (voice_quality a) = "high"
          /\ b = Rules.breathiness_band)
      \/ b = Rules.mud_band.
Proof.
  intros f0 vc. rewrite bands_rule_chain. fold f0 vc.
  rewrite !in_app_iff, in_high_pass_part, in_warmth_part,
    in_brightness_part, in_breathiness_part.
  cbn [In]. intuition auto.
Qed.

End BandFacts.

(** * Further properties of the plan *)

Section PlanMore.

Import PyNumFacts PyStrFacts RulesFacts PyRoundFacts BandFacts.

Variable a : AudioAnalysis.
Variable acc : gmap string json.
Hypothesis acc_ok : accent_well_formed acc.

Let f0 : Q := mean_hz (fundamental_frequency a).
Let vc : VoiceCharacteristics := voice_characteristics a.
Let breathiness : string := breathiness_indicator (voice_quality a).

(** Which rule made the band of hypothesis [Hin]. *)
Ltac band_cases Hin :=
  apply in_bands in Hin; cbv zeta in Hin; fold f0 vc breathiness in Hin;
  destruct Hin as
    [[? ->] | [(? & ? & ->) | [-> | [[? ->] | [[? ->] | [[? ->] | ->]]]]]];
  unfold Rules.high_pass_band, Rules.warmth_band, Rules.presence_band,
    Rules.sibilance_band, Rules.air_band, Rules.breathiness_band,
    Rules.mud_band in *;
  cbn [type description frequency_hz gain_db q] in *.

(** The warmth bell is emitted iff the mean pitch is positive and the
    voice range is low or low-mid (the rule is nested under the pitch
    test), and its centre is the mean pitch rounded to the nearest
    integer. *)
Theorem warmth_rule :
  exists plan,
    generate_eq_recommendations a acc = Ok plan
    /\ ((exists b, In b (eq_bands plan) /\ description b = "Add warmth and body")
        <-> (0 < f0)%Q
            /\ (voice_range vc = "low" \/ voice_range vc = "low-mid"))
    /\ (forall b, In b (eq_bands plan) ->
        description b = "Add warmth and body" ->
        b = Rules.warmth_band f0 /\ frequency_hz b = PyNum.round f0).
Proof.
  eexists. split; [apply generate_ok, acc_ok|]. cbn [eq_bands].
  split; [split|].
  - intros [b [Hin Hd]]. band_cases Hin; try discriminate. auto.
  - intros [Hp Hr]. exists (Rules.warmth_band f0). split; [|reflexivity].
    apply in_bands. cbv zeta. fold f0 vc. right. left. auto.
  - intros b Hin Hd. band_cases Hin; try discriminate. auto.
Qed.

(** The presence bell is emitted once for every input: at 2500 Hz when
    the mean pitch is below 200 and at 3000 Hz from 200 on. *)
Theorem presence_rule :
  exists plan,
    generate_eq_recommendations a acc = Ok plan
    /\ ((f0 < 200)%Q -> In (Rules.presence_band 2500) (eq_bands plan))
    /\ ((200 <= f0)%Q -> In (Rules.presence_band 3000) (eq_bands plan))
    /\ (forall b, In b (eq_bands plan) ->
        description b = "Enhance presence and clarity" ->
        b = Rules.presence_band (frequency_hz b)
        /\ ((f0 < 200)%Q -> frequency_hz b = 2500%Z)
        /\ ((200 <= f0)%Q -> frequency_hz b = 3000%Z)).
Proof.
  eexists. split; [apply generate_ok, acc_ok|]. cbn [eq_bands].
  assert (Hlt : (f0 < 200)%Q -> presence_freq f0 = 2500%Z).
  { intros H. apply ltb_lt in H. unfold presence_freq. now rewrite H. }
  assert (Hge : (200 <= f0)%Q -> presence_freq f0 = 3000%Z).
  { intros H. apply ltb_ge in H. unfold presence_freq. now rewrite H. }
  split; [|split].
  - intros H. apply in_bands. cbv zeta. fold f0. rewrite (Hlt H). auto.
  - intros H. apply in_bands. cbv zeta. fold f0. rewrite (Hge H). auto.
  - intros b Hin Hd. band_cases Hin; try discriminate. auto.
Qed.

(** The breathiness band is emitted iff the breathiness indicator is
    exactly "high"; it then stands right before the mud band, which
    closes the list for every input. *)
Theorem breathiness_rule :
  exists plan,
    generate_eq_recommendations a acc = Ok plan
    /\ (In Rules.breathiness_band (eq_bands plan) <-> breathiness = "high")
    /\ (breathiness = "high" ->
        exists front,
          eq_bands plan = front ++ [Rules.breathiness_band; Rules.mud_band])
    /\ (exists front, eq_bands plan = front ++ [Rules.mud_band]).
Proof.
  eexists. split; [apply generate_ok, acc_ok|]. cbn [eq_bands].
  split; [split|split].
  - intros Hin.
    assert (H : forall b, In b (Rules.bands (rule_chain a)) ->
                b = Rules.breathiness_band -> breathiness = "high").
    { clear Hin. intros b Hin Hb. band_cases Hin; try discriminate.
      assumption. }
    exact (H _ Hin eq_refl).
  - intros Hb. apply in_bands. cbv zeta. fold breathiness.
    do 5 right. left. auto.
  - intros Hb.
    exists (high_pass_part f0 ++ warmth_part f0 vc
            ++ [Rules.presence_band (presence_freq f0)]
            ++ brightness_part vc).
    rewrite bands_rule_chain. fold f0 vc breathiness.
    unfold breathiness_part. rewrite Hb, String.eqb_refl.
    rewrite <- !app_assoc. reflexivity.
  - rewrite bands_rule_chain. eexists. rewrite !app_assoc. reflexivity.
Qed.

(** One rule step keeps the sentences in line with the bands. *)
Lemma emit_aligned (r : string) (b : EQBand) (st : Rules.state) :
  r = recommendation_of_band b ->
  Rules.recs st = map recommendation_of_band (Rules.bands st) ->
  Rules.recs (Rules.emit r b st)
  = map recommendation_of_band (Rules.bands (Rules.emit r b st)).
Proof.
  intros -> H. unfold Rules.emit. cbn [Rules.recs Rules.bands].
  now rewrite map_app, H.
Qed.

Lemma rule_chain_aligned :
  Rules.recs (rule_chain a)
  = map recommendation_of_band (Rules.bands (rule_chain a)).
Proof.
  unfold rule_chain. fold f0 vc breathiness.
  unfold Rules.mud_reduction. apply emit_aligned; [reflexivity|].
  unfold Rules.breathiness_handling.
  destruct (String.eqb breathiness "high");
    [apply emit_aligned; [reflexivity|]|];
    (unfold Rules.brightness_control;
     destruct (String.eqb (brightness vc) "very bright/sibilant");
       [apply emit_aligned; [reflexivity|]
       |destruct (String.eqb (brightness vc) "dark/warm");
          [apply emit_aligned; [reflexivity|]|]];
     (unfold Rules.presence;
      apply emit_aligned; [destruct (PyNum.ltb f0 200); reflexivity|];
      unfold Rules.low_end;
      destruct (PyNum.gtb f0 0); [|reflexivity];
      destruct (PyStr.mem (voice_range vc) ["low"; "low-mid"]);
        repeat (apply emit_aligned; [reflexivity|]); reflexivity)).
Qed.

(** The recommendation sentences are the sentences of the bands, in the
    same order: the k-th sentence belongs to the rule of the k-th band,
    and the frequency it cites (high-pass, warmth and presence sentences)
    is the frequency stored in that band. *)
Theorem recommendations_follow_bands :
  exists plan,
    generate_eq_recommendations a acc = Ok plan
    /\ recommendations plan = map recommendation_of_band (eq_bands plan).
Proof.
  eexists. split; [apply generate_ok, acc_ok|].
  cbn [eq_bands recommendations]. apply rule_chain_aligned.
Qed.

(** The high-pass cutoff is never below 60 Hz, is exactly 60 Hz up to a
    mean pitch of 120, and from a mean pitch of 60 on it does not exceed
    the mean pitch rounded to the nearest integer (the centre of the
    warmth bell). *)
Theorem high_pass_cutoff_bounds :
  exists plan,
    generate_eq_recommendations a acc = Ok plan
    /\ (forall b, In b (eq_bands plan) -> type b = "high-pass" ->
        (60 <= frequency_hz b)%Z
        /\ ((f0 <= 120)%Q -> frequency_hz b = 60%Z)
        /\ ((60 <= f0)%Q -> (frequency_hz b <= PyNum.round f0)%Z)).
Proof.
  eexists. split; [apply generate_ok, acc_ok|]. cbn [eq_bands].
  intros b Hin Hty. band_cases Hin; try discriminate.
  set (half := (f0 * (1 # 2))%Q).
  assert (Hmax : (60 <= PyNum.max 60 half)%Q /\
                 ((half <= 60)%Q -> PyNum.max 60 half = 60%Q) /\
                 ((60 <= f0)%Q -> (PyNum.max 60 half <= f0)%Q)).
  { unfold PyNum.max.
    destruct (PyNum.gtb half 60) eqn:E;
      [apply gtb_gt in E | apply gtb_le in E]; subst half;
      repeat split; intros; try reflexivity; try lra. }
  destruct Hmax as (Hlo & Heq & Hup). repeat split.
  - change 60%Z with (PyNum.round 60). now apply round_mono.
  - intros H120. rewrite Heq; [reflexivity | subst half; lra].
  - intros H60. apply round_mono. auto.
Qed.

End PlanMore.

(** * The accent record *)

Section AccentMore.

Import PyStrFacts RulesFacts.

Variable a : AudioAnalysis.


(** Only the [primary_accent] entry of the accent record is read: adding,
    changing or removing any other entry leaves the result (plan or
    failure) unchanged. *)
Theorem other_accent_keys_ignored (acc : gmap string json)
    (k : string) (v : json) :
  k <> "primary_accent" ->
  generate_eq_recommendations a (<[k := v]> acc)
  = generate_eq_recommendations a acc
  /\ generate_eq_recommendations a (delete k acc)
     = generate_eq_recommendations a acc.
Proof.
  intros Hk. unfold generate_eq_recommendations.
  rewrite lookup_insert_ne by exact Hk.
  rewrite lookup_delete_ne by exact Hk.
  split; reflexivity.
Qed.

End AccentMore.

(** * From the measurements to the plan *)

Module ReportFacts.

Import PyNumFacts PyStrFacts RulesFacts PyRoundFacts BandFacts.

(** Rounding to one decimal stays below 200 exactly below 199.95. *)
Lemma round_nd_1_lt_200_iff (x : Q) :
  (PyText.round_nd x 1 < 200)%Q <-> (x < 3999 # 20)%Q.
Proof.
  unfold PyText.round_nd. change (inject_Z (10 ^ Z.of_nat 1)) with 10%Q.
  pose proof (round_near (x * 10)) as [Hlo _].
  assert (Hmono : (3999 # 20 <= x)%Q -> (2000 <= PyNum.round (x * 10))%Z).
  { intros H. change 2000%Z with (PyNum.round (3999 # 2)).
    apply round_mono. lra. }
  rewrite Zle_Qle in Hmono. change (inject_Z 2000) with 2000%Q in Hmono.
  set (r := inject_Z (PyNum.round (x * 10))) in *.
  assert (E : (r / 10 == r * (1 # 10))%Q) by (field; discriminate).
  rewrite E. split; intros H.
  - destruct (Qlt_le_dec x (3999 # 20)) as [Hx | Hx]; [exact Hx|].
    specialize (Hmono Hx). lra.
  - lra.
Qed.

Lemma brightness_sibilant_iff (p c z : Q) :
  brightness (categorize_voice p c z) = "very bright/sibilant" <-> (3500 <= c)%Q.
Proof.
  unfold categorize_voice.
  destruct (if PyNum.ltb p 130 then _ else _). cbn [brightness].
  destruct (ltb_cases c 1500) as [[E H] | [E H]]; rewrite E;
    [split; [discriminate | lra]|].
  destruct (ltb_cases c 2500) as [[E1 H1] | [E1 H1]]; rewrite E1;
    [split; [discriminate | lra]|].
  destruct (ltb_cases c 3500) as [[E2 H2] | [E2 H2]]; rewrite E2;
    [split; [discriminate | lra] | split; auto].
Qed.

Lemma brightness_dark_iff (p c z : Q) :
  brightness (categorize_voice p c z) = "dark/warm" <-> (c < 1500)%Q.
Proof.
  unfold categorize_voice.
  destruct (if PyNum.ltb p 130 then _ else _). cbn [brightness].
  destruct (ltb_cases c 1500) as [[E H] | [E H]]; rewrite E;
    [split; auto|].
  destruct (PyNum.ltb c 2500); [split; [discriminate | lra]|].
  destruct (PyNum.ltb c 3500); split; try discriminate; lra.
Qed.

Lemma voice_range_low_iff (p c z : Q) :
  voice_range (categorize_voice p c z) = "low"
  \/ voice_range (categorize_voice p c z) = "low-mid" <-> (p < 180)%Q.
Proof.
  unfold categorize_voice.
  destruct (ltb_cases p 130) as [[E H] | [E H]]; rewrite E; cbn [voice_range].
  - split; [lra | auto].
  - destruct (ltb_cases p 180) as [[E1 H1] | [E1 H1]]; rewrite E1;
      cbn [voice_range]; [split; auto|].
    destruct (PyNum.ltb p 250); cbn [voice_range];
      (split; [intros [?|?]; discriminate | lra]).
Qed.

Lemma breathiness_high_iff (z : Q) :
  breathiness_indicator_of z = "high" <-> (1 # 10 < z)%Q.
Proof.
  unfold breathiness_indicator_of.
  destruct (PyNum.gtb z (1 # 10)) eqn:E;
    [apply gtb_gt in E | apply gtb_le in E].
  - split; auto.
  - destruct (PyNum.gtb z (1 # 20)); split; try discriminate; lra.
Qed.

Ltac band_eqs :=
  unfold Rules.high_pass_band, Rules.warmth_band, Rules.presence_band,
    Rules.sibilance_band, Rules.air_band, Rules.breathiness_band,
    Rules.mud_band in *.

Lemma in_bands_sibilance (a : AudioAnalysis) :
  In Rules.sibilance_band (Rules.bands (rule_chain a))
  <-> brightness (voice_characteristics a) = "very bright/sibilant".
Proof.
  rewrite in_bands. cbv zeta. split.
  - intros [[_ H] | [(_ & _ & H) | [H | [[H _] | [[_ H] | [[_ H] | H]]]]]];
      band_eqs; try discriminate. exact H.
  - intros H. do 3 right. left. auto.
Qed.

Lemma in_bands_air (a : AudioAnalysis) :
  In Rules.air_band (Rules.bands (rule_chain a))
  <-> brightness (voice_characteristics a) = "dark/warm".
Proof.
  rewrite in_bands. cbv zeta. split.
  - intros [[_ H] | [(_ & _ & H) | [H | [[_ H] | [[H _] | [[_ H] | H]]]]]];
      band_eqs; try discriminate. exact H.
  - intros H. do 4 right. left. auto.
Qed.

Lemma in_bands_breathiness (a : AudioAnalysis) :
  In Rules.breathiness_band (Rules.bands (rule_chain a))
  <-> breathiness_indicator (voice_quality a) = "high".
Proof.
  rewrite in_bands. cbv zeta. split.
  - intros [[_ H] | [(_ & _ & H) | [H | [[_ H] | [[_ H] | [[H _] | H]]]]]];
      band_eqs; try discriminate. exact H.
  - intros H. do 5 right. left. auto.
Qed.

Lemma in_bands_presence (a : AudioAnalysis) (n : Z) :
  In (Rules.presence_band n) (Rules.bands (rule_chain a))
  <-> n = presence_freq (mean_hz (fundamental_frequency a)).
Proof.
  rewrite in_bands. cbv zeta. split.
  - intros [[_ H] | [(_ & _ & H) | [H | [[_ H] | [[_ H] | [[_ H] | H]]]]]];
      band_eqs; try discriminate. now injection H.
  - intros ->. do 2 right. left. reflexivity.
Qed.

Lemma in_bands_warmth (a : AudioAnalysis) :
  In (Rules.warmth_band (mean_hz (fundamental_frequency a)))
     (Rules.bands (rule_chain a))
  <-> (0 < mean_hz (fundamental_frequency a))%Q
      /\ (voice_range (voice_characteristics a) = "low"
          \/ voice_range (voice_characteristics a) = "low-mid").
Proof.
  rewrite in_bands. cbv zeta. split.
  - intros [[_ H] | [(H1 & H2 & _) | [H | [[_ H] | [[_ H] | [[_ H] | H]]]]]];
      band_eqs; try discriminate. auto.
  - intros [H1 H2]. right. left. auto.
Qed.

Lemma in_bands_high_pass (a : AudioAnalysis) :
  (exists b, In b (Rules.bands (rule_chain a)) /\ type b = "high-pass")
  <-> (0 < mean_hz (fundamental_frequency a))%Q.
Proof.
  split.
  - intros (b & Hin & Hty). apply in_bands in Hin. cbv zeta in Hin.
    destruct Hin as
      [[H _] | [(_ & _ & ->) | [-> | [[_ ->] | [[_ ->] | [[_ ->] | ->]]]]]];
      band_eqs; cbn [type] in Hty; try discriminate. exact H.
  - intros H. eexists. split; [apply in_bands; left; split; [exact H|reflexivity]|].
    reflexivity.
Qed.

End ReportFacts.

Section Report.

Import PyNumFacts PyStrFacts RulesFacts PyRoundFacts BandFacts ReportFacts.

Variable agg : PitchAggregates.
Variables centroid rolloff bandwidth zcr : Q.
Variable acc : gmap string json.
Hypothesis acc_ok : accent_well_formed acc.

Let report : AudioAnalysis := audio_report agg centroid rolloff bandwidth zcr.
Let p : Q := f0_mean agg.

(** The plan for the dict the analysis returns, in terms of the measured
    means.  The rule engine reads the mean pitch rounded to one decimal
    but the labels of the unrounded one, so: a high-pass band iff the mean
    pitch is above 0.05; the warmth bell iff moreover the mean pitch is
    below 180; the presence bell at 2500 Hz below a mean pitch of 199.95
    and at 3000 Hz from there on; the sibilance band iff the mean centroid
    is at least 3500, the air shelf iff it is below 1500; the breathiness
    band iff the mean zero-crossing rate is above 0.1. *)
Theorem report_plan :
  exists plan,
    generate_eq_recommendations report acc = Ok plan
    /\ ((exists b, In b (eq_bands plan) /\ type b = "high-pass")
        <-> (1 # 20 < p)%Q)
    /\ (In (Rules.warmth_band (PyText.round_nd p 1)) (eq_bands plan)
        <-> (1 # 20 < p)%Q /\ (p < 180)%Q)
    /\ (In (Rules.presence_band 2500) (eq_bands plan) <-> (p < 3999 # 20)%Q)
    /\ (In (Rules.presence_band 3000) (eq_bands plan) <-> (3999 # 20 <= p)%Q)
    /\ (In Rules.sibilance_band (eq_bands plan) <-> (3500 <= centroid)%Q)
    /\ (In Rules.air_band (eq_bands plan) <-> (centroid < 1500)%Q)
    /\ (In Rules.breathiness_band (eq_bands plan) <-> (1 # 10 < zcr)%Q).
Proof.
  eexists. split; [apply generate_ok, acc_ok|]. cbn [eq_bands].
  assert (Hf0 : mean_hz (fundamental_frequency report) = PyText.round_nd p 1)
    by reflexivity.
  assert (Hvc : voice_characteristics report = categorize_voice p centroid zcr)
    by reflexivity.
  assert (Hbr : breathiness_indicator (voice_quality report)
                = breathiness_indicator_of zcr) by reflexivity.
  repeat split.
  - intros H. apply in_bands_high_pass in H. rewrite Hf0 in H.
    now apply round_nd_1_pos_iff.
  - intros H. apply in_bands_high_pass. rewrite Hf0.
    now apply round_nd_1_pos_iff.
  - rewrite <- Hf0 in H. apply in_bands_warmth in H. rewrite Hf0 in H.
    now apply round_nd_1_pos_iff.
  - rewrite <- Hf0 in H. apply in_bands_warmth in H. rewrite Hvc in H.
    now apply (voice_range_low_iff p centroid zcr).
  - intros [H1 H2]. rewrite <- Hf0. apply in_bands_warmth.
    rewrite Hf0, Hvc. split; [now apply round_nd_1_pos_iff|].
    now apply voice_range_low_iff.
  - intros H. apply in_bands_presence in H. rewrite Hf0 in H.
    unfold presence_freq in H.
    destruct (ltb_cases (PyText.round_nd p 1) 200) as [[E Hlt] | [E Hge]];
      rewrite E in H; [|discriminate].
    now apply round_nd_1_lt_200_iff.
  - intros H. apply in_bands_presence. rewrite Hf0. unfold presence_freq.
    apply round_nd_1_lt_200_iff, ltb_lt in H. now rewrite H.
  - intros H. apply in_bands_presence in H. rewrite Hf0 in H.
    unfold presence_freq in H.
    destruct (ltb_cases (PyText.round_nd p 1) 200) as [[E Hlt] | [E Hge]];
      rewrite E in H; [discriminate|].
    destruct (Qlt_le_dec p (3999 # 20)) as [Hx | Hx]; [|exact Hx].
    apply round_nd_1_lt_200_iff in Hx. lra.
  - intros H. apply in_bands_presence. rewrite Hf0. unfold presence_freq.
    destruct (ltb_cases (PyText.round_nd p 1) 200) as [[E Hlt] | [E Hge]];
      rewrite E; [|reflexivity].
    apply round_nd_1_lt_200_iff in Hlt. lra.
  - intros H. apply in_bands_sibilance in H. rewrite Hvc in H.
    now apply brightness_sibilant_iff in H.
  - intros H. apply in_bands_sibilance. rewrite Hvc.
    now apply brightness_sibilant_iff.
  - intros H. apply in_bands_air in H. rewrite Hvc in H.
    now apply brightness_dark_iff in H.
  - intros H. apply in_bands_air. rewrite Hvc. now apply brightness_dark_iff.
  - intros H. apply in_bands_breathiness in H. rewrite Hbr in H.
    now apply breathiness_high_iff.
  - intros H. apply in_bands_breathiness. rewrite Hbr.
    now apply breathiness_high_iff.
Qed.

End Report.

(** * The pitch aggregates *)

Module PitchFacts.

Import PyNumFacts.

Lemma np_min_spec (xs : list Q) : forall x,
  In (np_min x xs) (x :: xs)
  /\ (np_min x xs <= x)%Q
  /\ (forall y, In y xs -> (np_min x xs <= y)%Q).
Proof.
  induction xs as [|y r IH]; intros x; cbn [np_min].
  - repeat split; [now left | lra | intros y []].
  - destruct (ltb_cases y x) as [[E H] | [E H]]; rewrite E.
    + destruct (IH y) as (Hin & Hle & Hall). repeat split.
      * right. exact Hin.
      * lra.
      * intros y' [<- | Hy']; [exact Hle | now apply Hall].
    + destruct (IH x) as (Hin & Hle & Hall). repeat split.
      * destruct Hin as [Hin | Hin]; [now left | right; now right].
      * exact Hle.
      * intros y' [<- | Hy']; [lra | now apply Hall].
Qed.

Lemma np_max_spec (xs : list Q) : forall x,
  In (np_max x xs) (x :: xs)
  /\ (x <= np_max x xs)%Q
  /\ (forall y, In y xs -> (y <= np_max x xs)%Q).
Proof.
  induction xs as [|y r IH]; intros x; cbn [np_max].
  - repeat split; [now left | lra | intros y []].
  - destruct (PyNum.gtb y x) eqn:E; [apply gtb_gt in E | apply gtb_le in E].
    + destruct (IH y) as (Hin & Hle & Hall). repeat split.
      * right. exact Hin.
      * lra.
      * intros y' [<- | Hy']; [exact Hle | now apply Hall].
    + destruct (IH x) as (Hin & Hle & Hall). repeat split.
      * destruct Hin as [Hin | Hin]; [now left | right; now right].
      * exact Hle.
      * intros y' [<- | Hy']; [lra | now apply Hall].
Qed.

Lemma in_drop_nan (f0 : list (option Q)) (x : Q) :
  In x (drop_nan f0) <-> In (Some x) f0.
Proof.
  induction f0 as [|[y|] r IH]; cbn [drop_nan In].
  - tauto.
  - rewrite IH. split; intros [H | H]; auto; left; congruence.
  - rewrite IH. split; [auto | intros [H | H]; [discriminate | exact H]].
Qed.

End PitchFacts.

Section Pitch.

Import PyNumFacts PitchFacts RulesFacts PyRoundFacts BandFacts ReportFacts.

Variables np_mean np_std : list Q -> Q.

(** On a pitch track with a voiced frame the minimum and the maximum are
    pitches of voiced frames, every voiced pitch lies between them, and
    the mean and the deviation are taken over the voiced frames only. *)
Theorem pitch_aggregates_voiced (f0 : list (option Q)) (x0 : Q) :
  In (Some x0) f0 ->
  let agg := pitch_aggregates np_mean np_std f0 in
  In (Some (f0_min agg)) f0
  /\ In (Some (f0_max agg)) f0
  /\ (forall x, In (Some x) f0 -> (f0_min agg <= x)%Q /\ (x <= f0_max agg)%Q)
  /\ (0 <= f0_max agg - f0_min agg)%Q
  /\ f0_mean agg = np_mean (drop_nan f0)
  /\ f0_std agg = np_std (drop_nan f0).
Proof.
  intros H0. cbv zeta. unfold pitch_aggregates.
  assert (Hin : forall x, In x (drop_nan f0) <-> In (Some x) f0)
    by (intros x; apply in_drop_nan).
  destruct (drop_nan f0) as [|y r].
  { apply Hin in H0. destruct H0. }
  cbn [f0_min f0_max f0_mean f0_std].
  destruct (np_min_spec r y) as (Hmin & Hminle & Hminall).
  destruct (np_max_spec r y) as (Hmax & Hmaxle & Hmaxall).
  repeat split; try (now apply Hin).
  - apply Hin in H. destruct H as [<- | H]; [exact Hminle | now apply Hminall].
  - apply Hin in H. destruct H as [<- | H]; [exact Hmaxle | now apply Hmaxall].
  - lra.
Qed.

(** A pitch track without a voiced frame (empty, or NaN throughout) gives
    the four aggregates 0 without calling [np.mean] or [np.std], and the
    plan for the dict built from them has neither the high-pass band nor
    the warmth bell, and its presence bell at 2500 Hz, whatever the other
    measurements are. *)
Theorem pitch_aggregates_unvoiced (f0 : list (option Q))
    (centroid rolloff bandwidth zcr : Q) (acc : gmap string json) :
  (forall x, ~ In (Some x) f0) ->
  accent_well_formed acc ->
  let agg := pitch_aggregates np_mean np_std f0 in
  agg = {| f0_mean := 0; f0_min := 0; f0_max := 0; f0_std := 0 |}
  /\ exists plan,
       generate_eq_recommendations
         (audio_report agg centroid rolloff bandwidth zcr) acc = Ok plan
       /\ (forall b, In b (eq_bands plan) ->
           type b <> "high-pass" /\ description b <> "Add warmth and body")
       /\ In (Rules.presence_band 2500) (eq_bands plan).
Proof.
  intros Hnone Hacc. cbv zeta.
  assert (Hagg : pitch_aggregates np_mean np_std f0
                 = {| f0_mean := 0; f0_min := 0; f0_max := 0; f0_std := 0 |}).
  { unfold pitch_aggregates.
    destruct (drop_nan f0) as [|y r] eqn:E; [reflexivity|].
    exfalso. apply (Hnone y). apply in_drop_nan. rewrite E. now left. }
  rewrite Hagg. split; [reflexivity|].
  eexists. split; [apply generate_ok, Hacc|]. cbn [eq_bands]. split.
  - intros b Hin. apply in_bands in Hin. cbv zeta in Hin.
    destruct Hin as
      [[H _] | [(H & _ & _) | [-> | [[_ ->] | [[_ ->] | [[_ ->] | ->]]]]]];
      try (exfalso; vm_compute in H; discriminate);
      split; discriminate.
  - apply in_bands_presence. reflexivity.
Qed.

End Pitch.

(** * Text handling *)

Module PyTextFacts.

Import PyStrFacts.

Lemma append_assoc (s t u : string) : (s +:+ t) +:+ u = s +:+ t +:+ u.
Proof.
  induction s as [|c s IH]; [now rewrite !append_nil|].
  rewrite !append_cons. now rewrite IH.
Qed.

Lemma lstrip_space (ws s : string) :
  all_space ws = true -> PyText.lstrip (ws +:+ s) = PyText.lstrip s.
Proof.
  induction ws as [|c ws IH]; cbn [all_space]; intros H.
  - now rewrite append_nil.
  - apply andb_true_iff in H as [Hc Hws]. rewrite append_cons.
    cbn [PyText.lstrip]. rewrite Hc. now apply IH.
Qed.

Lemma rstrip_all_space (ws : string) :
  all_space ws = true -> PyText.rstrip ws = "".
Proof.
  induction ws as [|c ws IH]; cbn [all_space]; intros H; [reflexivity|].
  apply andb_true_iff in H as [Hc Hws]. cbn [PyText.rstrip].
  rewrite (IH Hws), Hc. reflexivity.
Qed.

Lemma rstrip_space (s ws : string) :
  all_space ws = true -> PyText.rstrip (s +:+ ws) = PyText.rstrip s.
Proof.
  intros H. induction s as [|c s IH].
  - rewrite append_nil. now apply rstrip_all_space.
  - rewrite append_cons. cbn [PyText.rstrip]. now rewrite IH.
Qed.

(** A text that ends in a character that is no white space is its own
    [rstrip]. *)
Lemma rstrip_last (s : string) (c : ascii) :
  PyText.isspace c = false ->
  PyText.rstrip (s +:+ String c "") = s +:+ String c "".
Proof.
  intros Hc. induction s as [|d s IH].
  - rewrite append_nil. cbn [PyText.rstrip]. now rewrite Hc.
  - rewrite append_cons. cbn [PyText.rstrip]. rewrite IH.
    destruct s; [rewrite append_nil | rewrite append_cons]; reflexivity.
Qed.

Lemma split_nonempty (sep : ascii) (s : string) : PyText.split sep s <> [].
Proof.
  destruct s as [|c s]; cbn [PyText.split]; [discriminate|].
  destruct (Ascii.eqb c sep); [discriminate|].
  destruct (PyText.split sep s); discriminate.
Qed.

(** Splitting at a separator splits the two sides. *)
Lemma split_app (sep : ascii) (s t : string) :
  PyText.split sep (s +:+ String sep t)
  = PyText.split sep s ++ PyText.split sep t.
Proof.
  induction s as [|c s IH].
  - rewrite append_nil. cbn [PyText.split]. now rewrite Ascii.eqb_refl.
  - rewrite append_cons. cbn [PyText.split]. rewrite IH.
    destruct (Ascii.eqb c sep); [reflexivity|].
    pose proof (split_nonempty sep s) as Hne.
    destruct (PyText.split sep s); [contradiction | reflexivity].
Qed.

(** A text without the separator is one piece. *)
Lemma split_char_free (sep : ascii) (s : string) :
  char_free sep s = true -> PyText.split sep s = [s].
Proof.
  induction s as [|c s IH]; cbn [char_free PyText.split]; intros H;
    [reflexivity|].
  apply andb_true_iff in H as [Hc Hs]. apply negb_true_iff in Hc.
  rewrite Hc, (IH Hs). reflexivity.
Qed.

(** [sep.join(s.split(sep))] is [s]. *)
Lemma join_split (sep : ascii) (s : string) :
  PyText.join sep (PyText.split sep s) = s.
Proof.
  induction s as [|c s IH]; [reflexivity|].
  cbn [PyText.split].
  pose proof (split_nonempty sep s) as Hne.
  destruct (Ascii.eqb_spec c sep) as [-> | Hc].
  - destruct (PyText.split sep s) as [|h r]; [contradiction|].
    change (PyText.join sep ("" :: h :: r))
      with ("" +:+ String sep (PyText.join sep (h :: r))).
    now rewrite append_nil, IH.
  - destruct (PyText.split sep s) as [|h r]; [contradiction|].
    destruct r as [|h' r].
    + cbn [PyText.join] in *. now rewrite IH.
    + change (PyText.join sep (String c h :: h' :: r))
        with (String c h +:+ String sep (PyText.join sep (h' :: r))).
      rewrite append_cons.
      change (PyText.join sep (h :: h' :: r))
        with (h +:+ String sep (PyText.join sep (h' :: r))) in IH.
      now rewrite IH.
Qed.

Lemma inner_middle {A : Type} (x y : A) (l : list A) :
  PyText.inner (x :: l ++ [y]) = l.
Proof. unfold PyText.inner. cbn [tl]. apply removelast_last. Qed.

Lemma take_app (s r : string) :
  PyText.take (String.length s) (s +:+ r) = s.
Proof.
  unfold PyText.take. induction s as [|c s IH].
  - rewrite append_nil. destruct r; reflexivity.
  - rewrite append_cons. cbn [String.length String.substring]. now rewrite IH.
Qed.

Lemma length_app (s t : string) :
  String.length (s +:+ t) = (String.length s + String.length t)%nat.
Proof.
  induction s as [|c s IH]; [now rewrite append_nil|].
  rewrite append_cons. cbn [String.length]. now rewrite IH.
Qed.

Lemma replace_app (a b : ascii) (s t : string) :
  PyText.replace a b (s +:+ t) = PyText.replace a b s +:+ PyText.replace a b t.
Proof.
  induction s as [|c s IH]; [now rewrite !append_nil|].
  rewrite append_cons. cbn [PyText.replace]. rewrite append_cons.
  now rewrite IH.
Qed.

Lemma replace_char_free (a b : ascii) (s : string) :
  char_free a s = true -> PyText.replace a b s = s.
Proof.
  induction s as [|c s IH]; cbn [char_free PyText.replace]; intros H;
    [reflexivity|].
  apply andb_true_iff in H as [Hc Hs]. apply negb_true_iff in Hc.
  now rewrite Hc, (IH Hs).
Qed.

Lemma replace_removes (a b : ascii) (s : string) :
  a <> b -> char_free a (PyText.replace a b s) = true.
Proof.
  intros Hab. induction s as [|c s IH]; [reflexivity|].
  cbn [PyText.replace char_free]. rewrite IH, andb_true_r.
  apply negb_true_iff.
  destruct (Ascii.eqb_spec c a) as [-> | Hc].
  - apply Ascii.eqb_neq. congruence.
  - now apply Ascii.eqb_neq.
Qed.

Lemma replace_length (a b : ascii) (s : string) :
  String.length (PyText.replace a b s) = String.length s.
Proof.
  induction s as [|c s IH]; [reflexivity|].
  cbn [PyText.replace String.length]. now rewrite IH.
Qed.

Lemma take_length (n : nat) (s : string) :
  String.length (PyText.take n s) = Nat.min n (String.length s).
Proof.
  unfold PyText.take. revert s.
  induction n as [|n IH]; intros [|c s]; cbn [String.substring String.length];
    try reflexivity.
  rewrite IH. reflexivity.
Qed.

End PyTextFacts.

Section Fence.

Import PyStrFacts PyTextFacts.

Let fence : string := "```".
Let nl : ascii := "010".

Ltac norm_append :=
  repeat (rewrite append_assoc || rewrite append_cons || rewrite append_nil).

(** What [strip] leaves of a fenced answer with white space around it. *)
Lemma strip_fenced (ws1 ws2 mid : string) :
  all_space ws1 = true -> all_space ws2 = true ->
  PyText.strip (ws1 +:+ fence +:+ mid +:+ fence +:+ ws2)
  = fence +:+ mid +:+ fence.
Proof.
  intros H1 H2. unfold PyText.strip. rewrite (lstrip_space _ _ H1).
  unfold fence at 1. rewrite append_cons. cbn [PyText.lstrip].
  change (PyText.isspace "`") with false. cbv iota.
  rewrite <- append_cons. change (String "`" "``") with fence.
  replace (fence +:+ mid +:+ fence +:+ ws2)
    with ((fence +:+ mid +:+ "``" +:+ String "`" "") +:+ ws2).
  - rewrite (rstrip_space _ _ H2).
    replace (fence +:+ mid +:+ "``" +:+ String "`" "")
      with ((fence +:+ mid +:+ "``") +:+ String "`" "")
      by (now rewrite !append_assoc).
    rewrite rstrip_last by reflexivity.
    rewrite !append_assoc. reflexivity.
  - rewrite !append_assoc. reflexivity.
Qed.

(** An answer wrapped in a code fence, with any white space around it and
    any language tag after the opening fence, is handed on as exactly the
    text between the line of the opening fence and the line of the closing
    fence. *)
Theorem code_fence_round_trip (ws1 ws2 lang body : string) :
  all_space ws1 = true -> all_space ws2 = true ->
  char_free nl lang = true ->
  strip_code_fence
    (ws1 +:+ fence +:+ (lang +:+ String nl body +:+ String nl "") +:+ fence +:+ ws2)
  = body.
Proof.
  intros H1 H2 Hl. unfold strip_code_fence. cbv zeta.
  rewrite (strip_fenced _ _ _ H1 H2).
  assert (Hstart : PyText.startswith "```"
            (fence +:+ (lang +:+ String nl body +:+ String nl "") +:+ fence) = true)
    by (apply prefix_app; eexists; reflexivity).
  rewrite Hstart.
  replace (fence +:+ (lang +:+ String nl body +:+ String nl "") +:+ fence)
    with ((fence +:+ lang) +:+ String nl (body +:+ String nl fence)).
  - rewrite split_app. rewrite split_app.
    rewrite (split_char_free nl fence) by reflexivity.
    assert (Hfl : char_free nl (fence +:+ lang) = true) by exact Hl.
    rewrite (split_char_free _ _ Hfl).
    change ([fence +:+ lang] ++ PyText.split nl body ++ [fence])
      with ((fence +:+ lang) :: PyText.split nl body ++ [fence]).
    rewrite inner_middle. apply join_split.
  - norm_append. reflexivity.
Qed.

(** A fenced answer that keeps the closing fence on its last line of text
    (one or two lines in all) is handed on as the empty text: the first
    and the last line are dropped whatever they hold. *)
Theorem code_fence_short_answer (ws1 ws2 first last : string) :
  all_space ws1 = true -> all_space ws2 = true ->
  char_free nl first = true -> char_free nl last = true ->
  strip_code_fence (ws1 +:+ fence +:+ first +:+ fence +:+ ws2) = ""
  /\ strip_code_fence
       (ws1 +:+ fence +:+ (first +:+ String nl last) +:+ fence +:+ ws2) = "".
Proof.
  intros H1 H2 Hf Hl. unfold strip_code_fence. cbv zeta.
  rewrite !(strip_fenced _ _ _ H1 H2).
  assert (Hcf : forall s t, char_free nl s = true -> char_free nl t = true ->
                char_free nl (s +:+ t) = true).
  { intros s t Hs Ht. induction s as [|c s IH]; [now rewrite append_nil|].
    rewrite append_cons. cbn [char_free] in *.
    apply andb_true_iff in Hs as [Hc Hs]. rewrite Hc. now apply IH. }
  split.
  - assert (Hstart : PyText.startswith "```" (fence +:+ first +:+ fence) = true)
      by (apply prefix_app; eexists; reflexivity).
    rewrite Hstart.
    rewrite split_char_free; [reflexivity|].
    apply (Hcf fence); [reflexivity|]. now apply Hcf.
  - assert (Hstart : PyText.startswith "```"
              (fence +:+ (first +:+ String nl last) +:+ fence) = true)
      by (apply prefix_app; eexists; reflexivity).
    rewrite Hstart.
    replace (fence +:+ (first +:+ String nl last) +:+ fence)
      with ((fence +:+ first) +:+ String nl (last +:+ fence))
      by (norm_append; reflexivity).
    rewrite split_app.
    rewrite !split_char_free; [reflexivity| |].
    + now apply Hcf.
    + apply (Hcf fence); [reflexivity | exact Hf].
Qed.

End Fence.

Section Timestamp.

Import PyStrFacts PyTextFacts.

(** An ISO time stamp (ten characters of date, a T, eight characters of
    time, then anything) is shown as the date, a space and the time. *)
Theorem timestamp_text_iso (date time rest : string) :
  String.length date = 10%nat -> String.length time = 8%nat ->
  char_free "T" date = true -> char_free "T" time = true ->
  timestamp_text (Some (date +:+ String "T" time +:+ rest))
  = date +:+ String " " time.
Proof.
  intros Hd Ht Hfd Hft. unfold timestamp_text. cbn [from_option id].
  replace (date +:+ String "T" time +:+ rest)
    with ((date +:+ String "T" time) +:+ rest)
    by (now rewrite append_assoc).
  assert (Hlen : String.length (date +:+ String "T" time) = 19%nat).
  { rewrite length_app. cbn [String.length]. lia. }
  assert (Htake : PyText.take 19 ((date +:+ String "T" time) +:+ rest)
                  = date +:+ String "T" time).
  { rewrite <- Hlen. apply take_app. }
  rewrite Htake, replace_app. cbn [PyText.replace].
  change (Ascii.eqb "T" "T") with true. cbv iota.
  now rewrite !replace_char_free.
Qed.

(** Whatever the metadata holds, the time stamp shown has at most 19
    characters, none of them a T; its length is that of the first 19
    characters of the entry, and a missing entry gives the empty text. *)
Theorem timestamp_text_shape (analysis_timestamp : option string) :
  (String.length (timestamp_text analysis_timestamp) <= 19)%nat
  /\ char_free "T" (timestamp_text analysis_timestamp) = true
  /\ String.length (timestamp_text analysis_timestamp)
     = Nat.min 19 (String.length (default "" analysis_timestamp))
  /\ timestamp_text None = "".
Proof.
  unfold timestamp_text. rewrite replace_length, take_length.
  repeat split.
  - apply Nat.le_min_l.
  - apply replace_removes. discriminate.
Qed.

End Timestamp.

(** * More sample runs *)

Section MoreSamples.

Lemma warmth_rule_witness :
  exists plan,
    generate_eq_recommendations (analysis_of 110 1200 (3 # 100))
      (accent_named "Irish") = Ok plan
    /\ exists b, In b (eq_bands plan) /\ description b = "Add warmth and body".
Proof.
  destruct (warmth_rule (analysis_of 110 1200 (3 # 100))
              (accent_named "Irish") ltac:(vm_compute; exact I))
    as (plan & Hgen & Hiff & _).
  exists plan. split; [exact Hgen|]. apply Hiff.
  split; [reflexivity | left; reflexivity].
Defined.

Lemma presence_rule_witness :
  exists plan,
    generate_eq_recommendations (analysis_of 110 1200 (3 # 100))
      (accent_named "Irish") = Ok plan
    /\ In (Rules.presence_band 2500) (eq_bands plan).
Proof.
  destruct (presence_rule (analysis_of 110 1200 (3 # 100))
              (accent_named "Irish") ltac:(vm_compute; exact I))
    as (plan & Hgen & Hlow & _).
  exists plan. split; [exact Hgen | apply Hlow; reflexivity].
Defined.

Lemma breathiness_rule_witness :
  exists plan,
    generate_eq_recommendations (analysis_of 110 1200 (3 # 10))
      (accent_named "Irish") = Ok plan
    /\ In Rules.breathiness_band (eq_bands plan).
Proof.
  destruct (breathiness_rule (analysis_of 110 1200 (3 # 10))
              (accent_named "Irish") ltac:(vm_compute; exact I))
    as (plan & Hgen & Hiff & _).
  exists plan. split; [exact Hgen | apply Hiff; reflexivity].
Defined.

Lemma recommendations_follow_bands_witness :
  exists plan,
    generate_eq_recommendations (analysis_of 110 1200 (3 # 10))
      (accent_named "Irish") = Ok plan
    /\ recommendations plan = map recommendation_of_band (eq_bands plan).
Proof.
  exact (recommendations_follow_bands (analysis_of 110 1200 (3 # 10))
           (accent_named "Irish") ltac:(vm_compute; exact I)).
Defined.

Lemma high_pass_cutoff_bounds_witness :
  exists plan,
    generate_eq_recommendations (analysis_of 210 4000 (3 # 100))
      (accent_named "American") = Ok plan
    /\ forall b, In b (eq_bands plan) -> type b = "high-pass" ->
       (60 <= frequency_hz b <= 210)%Z.
Proof.
  destruct (high_pass_cutoff_bounds (analysis_of 210 4000 (3 # 100))
              (accent_named "American") ltac:(vm_compute; exact I))
    as (plan & Hgen & Hb).
  exists plan. split; [exact Hgen|]. intros b Hin Hty.
  destruct (Hb b Hin Hty) as (Hlo & _ & Hup).
  split; [exact Hlo | apply Hup; discriminate].
Defined.

Lemma other_accent_keys_ignored_witness :
  generate_eq_recommendations (analysis_of 110 1200 (3 # 100))
    (<["confidence" := JString "high"]> (accent_named "Irish"))
  = generate_eq_recommendations (analysis_of 110 1200 (3 # 100))
      (accent_named "Irish").
Proof.
  apply (other_accent_keys_ignored (analysis_of 110 1200 (3 # 100))
           (accent_named "Irish") "confidence" (JString "high")).
  discriminate.
Defined.

Lemma report_plan_witness :
  exists plan,
    generate_eq_recommendations
      (audio_report {| f0_mean := 110; f0_min := 90; f0_max := 140;
                       f0_std := 10 |} 1200 2500 1500 (3 # 100))
      (accent_named "Irish") = Ok plan
    /\ In (Rules.warmth_band (PyText.round_nd 110 1)) (eq_bands plan)
    /\ In Rules.air_band (eq_bands plan).
Proof.
  destruct (report_plan {| f0_mean := 110; f0_min := 90; f0_max := 140;
                           f0_std := 10 |} 1200 2500 1500 (3 # 100)
              (accent_named "Irish") ltac:(vm_compute; exact I))
    as (plan & Hgen & _ & Hwarm & _ & _ & _ & Hair & _).
  exists plan. split; [exact Hgen|]. split.
  - apply Hwarm. split; reflexivity.
  - apply Hair. reflexivity.
Defined.

Lemma pitch_aggregates_voiced_witness :
  f0_min (pitch_aggregates (fun xs => (fold_right Qplus 0 xs / inject_Z (Z.of_nat (length xs)))%Q) (fun _ => 0%Q)
            [None; Some 100%Q; Some 120%Q; None; Some 90%Q]) = 90%Q
  /\ In (Some 90%Q) [None; Some 100%Q; Some 120%Q; None; Some 90%Q].
Proof.
  split; [reflexivity|].
  exact (proj1 (pitch_aggregates_voiced (fun xs => (fold_right Qplus 0 xs / inject_Z (Z.of_nat (length xs)))%Q)
                  (fun _ => 0%Q)
                  [None; Some 100%Q; Some 120%Q; None; Some 90%Q] 100
                  ltac:(right; left; reflexivity))).
Defined.

Lemma pitch_aggregates_unvoiced_witness :
  exists plan,
    generate_eq_recommendations
      (audio_report (pitch_aggregates (fun xs => (fold_right Qplus 0 xs / inject_Z (Z.of_nat (length xs)))%Q)
                       (fun _ => 0%Q) [None; None])
         2000 2500 1500 (3 # 100))
      (accent_named "Irish") = Ok plan
    /\ In (Rules.presence_band 2500) (eq_bands plan).
Proof.
  destruct (pitch_aggregates_unvoiced (fun xs => (fold_right Qplus 0 xs / inject_Z (Z.of_nat (length xs)))%Q)
              (fun _ => 0%Q) [None; None] 2000 2500 1500 (3 # 100)
              (accent_named "Irish")
              ltac:(intros x [H | [H | []]]; discriminate H)
              ltac:(vm_compute; exact I))
    as (_ & plan & Hgen & _ & Hpres).
  exists plan. split; assumption.
Defined.

Lemma code_fence_round_trip_witness :
  strip_code_fence
    (" " +:+ "```" +:+ ("json" +:+ String "010" "{}" +:+ String "010" "")
     +:+ "```" +:+ String "010" "")
  = "{}".
Proof.
  apply (code_fence_round_trip " " (String "010" "") "json" "{}");
    reflexivity.
Defined.

Lemma code_fence_short_answer_witness :
  strip_code_fence (" " +:+ "```" +:+ "{}" +:+ "```" +:+ " ") = "".
Proof.
  apply (code_fence_short_answer " " " " "{}" ""); reflexivity.
Defined.

Lemma timestamp_text_iso_witness :
  timestamp_text (Some ("2025-01-15" +:+ String "T" "10:30:00" +:+ ".123456"))
  = "2025-01-15" +:+ String " " "10:30:00".
Proof.
  apply (timestamp_text_iso "2025-01-15" "10:30:00" ".123456"); reflexivity.
Defined.

End MoreSamples.
